(** * The drive-thru ordering page ([frontend/src/routes/+page.svelte])

    A shallow embedding of the page controller: the JSON values it receives
    from the backend, the inline wire-to-UI record mapper, the two
    asynchronous handlers [fetchOrders] and [processOrder] cut at their
    [await] points, the submit handler, and the history panel of the
    template.  The properties of the page are proved at the end. *)

From Stdlib Require Import ZArith List String Ascii Bool Lia.
From Stdlib Require Import DecimalString.
Import ListNotations.
Set Warnings "-register-all".
Local Open Scope string_scope.
Local Open Scope Z_scope.

(** ** JavaScript values

    What [response.json()] can deliver, plus [undefined].  The page never
    computes with a number: it hands it on, tests it for truth and turns it
    into text, so a number is held as the text JavaScript prints for it
    ([1], [0.5], [1e+21], [Infinity]; both zeros print [0]).  A string is
    held as its UTF-8 bytes.  An object is the list of its own properties;
    the first binding of a key is the live one. *)

Inductive value : Type :=
| VUndefined
| VNull
| VBool (b : bool)
| VNum (shown : string)
| VStr (s : string)
| VArr (xs : list value)
| VObj (fields : list (string * value)).

(** A thrown value: an [Error] instance (with its [name] and [message]) or
    anything else. *)
Inductive exn : Type :=
| Error (name message : string)
| Raised (v : value).

(** Completion of an expression or of a promise. *)
Inductive result (A : Type) : Type :=
| Ok (a : A)
| Throw (e : exn).
Arguments Ok {A} a.
Arguments Throw {A} e.

Definition bind {A B : Type} (r : result A) (k : A -> result B) : result B :=
  match r with
  | Ok a => k a
  | Throw e => Throw e
  end.

Declare Scope js_scope.
Delimit Scope js_scope with js.
Notation "'let*' x ':=' e 'in' k" := (bind e (fun x => k))
  (at level 10, x name, e at level 100, k at level 200) : js_scope.
Local Open Scope js_scope.

Fixpoint mapM {A B : Type} (f : A -> result B) (xs : list A) : result (list B) :=
  match xs with
  | [] => Ok []
  | x :: rest =>
      let* y := f x in
      let* ys := mapM f rest in
      Ok (y :: ys)
  end.

(** *** Primitive operations *)

Definition nullish (v : value) : bool :=
  match v with
  | VUndefined | VNull => true
  | _ => false
  end.

(** ToBoolean. *)
Definition truthy (v : value) : bool :=
  match v with
  | VUndefined | VNull => false
  | VBool b => b
  | VNum shown => negb (shown =? "0")%string && negb (shown =? "NaN")%string
  | VStr s => negb (s =? "")%string
  | VArr _ | VObj _ => true
  end.

(** [a || b], with [b] evaluated only when [a] is falsy. *)
Definition js_or (a : value) (b : result value) : result value :=
  if truthy a then Ok a else b.

(** [v === 'lit']. *)
Definition is_string (v : value) (lit : string) : bool :=
  match v with
  | VStr s => (s =? lit)%string
  | _ => false
  end.

Fixpoint lookup (k : string) (fields : list (string * value)) : option value :=
  match fields with
  | [] => None
  | (k', v) :: rest => if (k' =? k)%string then Some v else lookup k rest
  end.

(** Assignment to a property inside an object literal: an existing key keeps
    its place, a new one goes last. *)
Fixpoint assign (k : string) (v : value) (fields : list (string * value))
  : list (string * value) :=
  match fields with
  | [] => [(k, v)]
  | (k', v') :: rest =>
      if (k' =? k)%string then (k, v) :: rest else (k', v') :: assign k v rest
  end.

Definition type_error (what : string) : exn := Error "TypeError" what.

(** [v.k] for the property names the page reads ([action_type], [items],
    [display_message], [item_type], [quantity], [detail], [status],
    [message], [history], [totals], [actionType], [itemType], [id],
    [timestamp]): none of them is a built-in property of a string, a number,
    a boolean or an array, so on those the read gives [undefined]; on [null]
    and [undefined] it throws. *)
Definition get (v : value) (k : string) : result value :=
  match v with
  | VUndefined =>
      Throw (type_error ("Cannot read properties of undefined (reading '" ++ k ++ "')"))
  | VNull =>
      Throw (type_error ("Cannot read properties of null (reading '" ++ k ++ "')"))
  | VObj fields =>
      match lookup k fields with
      | Some x => Ok x
      | None => Ok VUndefined
      end
  | _ => Ok VUndefined
  end.

(** [callee.map(f)], where [v] is the value of the expression [callee]:
    only an array has a callable [map] among JSON values.  The text of the
    TypeError names the expression. *)
Definition array_map {B : Type} (callee : string) (f : value -> result B) (v : value)
  : result (list B) :=
  match v with
  | VArr xs => mapM f xs
  | VUndefined =>
      Throw (type_error "Cannot read properties of undefined (reading 'map')")
  | VNull =>
      Throw (type_error "Cannot read properties of null (reading 'map')")
  | _ => Throw (type_error (callee ++ ".map is not a function"))
  end.

Definition index_key (i : nat) : string :=
  NilZero.string_of_uint (Nat.to_uint i).

Fixpoint indexed (i : nat) (xs : list value) : list (string * value) :=
  match xs with
  | [] => []
  | x :: rest => (index_key i, x) :: indexed (S i) rest
  end.

Fixpoint units (s : string) : list value :=
  match s with
  | EmptyString => []
  | String c rest => VStr (String c EmptyString) :: units rest
  end.

(** [{...v}]: the own enumerable properties of [v]; none for [null],
    [undefined], numbers and booleans, the indices for arrays and strings
    (one per byte here, one per code unit in the browser: the mapper throws
    on a string before the copy is read). *)
Definition spread (v : value) : list (string * value) :=
  match v with
  | VObj fields => fields
  | VArr xs => indexed 0 xs
  | VStr s => indexed 0 (units s)
  | _ => []
  end.

Fixpoint join (sep : string) (parts : list string) : string :=
  match parts with
  | [] => ""
  | [p] => p
  | p :: rest => p ++ sep ++ join sep rest
  end.

(** ToString, as a template literal and [new Error(v)] apply it.  An
    array is joined with commas, [null] and [undefined] elements giving
    nothing.  An object goes through its [toString] and [valueOf]: with an
    own [toString] property (never callable in a JSON value) neither
    yields a primitive and the conversion throws; without one the
    inherited [toString] answers. *)
Fixpoint to_string (v : value) : result string :=
  match v with
  | VUndefined => Ok "undefined"
  | VNull => Ok "null"
  | VBool true => Ok "true"
  | VBool false => Ok "false"
  | VNum shown => Ok shown
  | VStr s => Ok s
  | VArr xs =>
      let* parts :=
        (fix elements (rest : list value) : result (list string) :=
           match rest with
           | [] => Ok []
           | x :: rest' =>
               let* part := (if nullish x then Ok EmptyString else to_string x) in
               let* parts := elements rest' in
               Ok (part :: parts)
           end) xs in
      Ok (join "," parts)
  | VObj fields =>
      match lookup "toString" fields with
      | Some _ => Throw (type_error "Cannot convert object to primitive value")
      | None => Ok "[object Object]"
      end
  end.

(** [new Error(v)]: the message is [ToString v], and absent (so [""] from
    the prototype) when [v] is [undefined]. *)
Definition new_Error (v : value) : result exn :=
  match v with
  | VUndefined => Ok (Error "Error" EmptyString)
  | _ =>
      let* text := to_string v in
      Ok (Error "Error" text)
  end.

(** [err instanceof Error ? err.message : fallback]. *)
Definition message_of (fallback : string) (err : exn) : string :=
  match err with
  | Error _ m => m
  | Raised _ => fallback
  end.

(** ** The wire-to-UI mapper (lines 47-55 and 101-109, the same text twice) *)

(** [(item) => ({ itemType: item.item_type, quantity: item.quantity })] *)
Definition mapOrderItem (item : value) : result value :=
  let* item_type := get item "item_type" in
  let* quantity := get item "quantity" in
  Ok (VObj [("itemType", item_type); ("quantity", quantity)]).

(** [(item) => ({ ...item, actionType: item.action_type,
                  items: item.items.map(...),
                  display_message: item.display_message })] *)
Definition mapHistoryItem (item : value) : result value :=
  let own := spread item in
  let* action_type := get item "action_type" in
  let* items := get item "items" in
  let* mapped := array_map "item.items" mapOrderItem items in
  let* display_message := get item "display_message" in
  Ok (VObj (assign "display_message" display_message
             (assign "items" (VArr mapped)
               (assign "actionType" action_type own)))).

(** ** Page state (lines 29-33) *)

Record State : Type := mkState {
  message : string;
  history : list value;
  totals : value;
  loading : bool;
  error : value
}.

Definition initial : State :=
  mkState "" []
    (VObj [("burger", VNum "0"); ("fries", VNum "0"); ("drink", VNum "0")])
    false (VStr "").

(** *** Statements over the page state

    A synchronous stretch of a handler: it reads and assigns the page
    variables and completes normally or by throwing.  Assignments made
    before a throw stay. *)

Definition cmd (A : Type) : Type := State -> State * result A.

Definition ret {A : Type} (a : A) : cmd A := fun st => (st, Ok a).

Definition throw {A : Type} (e : exn) : cmd A := fun st => (st, Throw e).

Definition seq {A B : Type} (c : cmd A) (k : A -> cmd B) : cmd B :=
  fun st =>
    match c st with
    | (st', Ok a) => k a st'
    | (st', Throw e) => (st', Throw e)
    end.

Definition eval {A : Type} (r : result A) : cmd A := fun st => (st, r).

Notation "x <- c ;; k" := (seq c (fun x => k))
  (at level 61, c at next level, right associativity) : js_scope.
Notation "c ;; k" := (seq c (fun _ => k))
  (at level 61, right associativity) : js_scope.

Definition set_message (m : string) : cmd unit :=
  fun st => (mkState m (history st) (totals st) (loading st) (error st), Ok tt).
Definition set_history (h : list value) : cmd unit :=
  fun st => (mkState (message st) h (totals st) (loading st) (error st), Ok tt).
Definition set_totals (t : value) : cmd unit :=
  fun st => (mkState (message st) (history st) t (loading st) (error st), Ok tt).
Definition set_loading (b : bool) : cmd unit :=
  fun st => (mkState (message st) (history st) (totals st) b (error st), Ok tt).
Definition set_error (e : value) : cmd unit :=
  fun st => (mkState (message st) (history st) (totals st) (loading st) e, Ok tt).

(** [try { body } catch (err) { handler }] *)
Definition try_catch (body : cmd unit) (handler : exn -> cmd unit) : cmd unit :=
  fun st =>
    match body st with
    | (st', Ok u) => (st', Ok u)
    | (st', Throw e) => handler e st'
    end.

(** [try { body } finally { final }], for a [final] that completes
    normally. *)
Definition try_finally (body : cmd unit) (final : cmd unit) : cmd unit :=
  fun st =>
    match body st with
    | (st', r) =>
        match final st' with
        | (st'', Ok _) => (st'', r)
        | (st'', Throw e) => (st'', Throw e)
        end
    end.

(** The page state a statement leaves. *)
Definition exec {A : Type} (c : cmd A) (st : State) : State := fst (c st).

(** *** The network, as the page sees it *)

Record Request : Type := mkRequest {
  method : string;
  url : string;
  payload : option value        (* the value given to [JSON.stringify] *)
}.

(** A response: its HTTP status and what [response.json()] settles to. *)
Record Response : Type := mkResponse {
  status : Z;
  json : result value
}.

(** [response.ok] *)
Definition ok (r : Response) : bool :=
  (200 <=? status r) && (status r <=? 299).

(** ** [fetchOrders] (lines 35-61)

    The function is cut at its three [await]s.  Each stretch after the first
    runs inside the [try], so a rejection of the awaited promise, like a
    throw of the stretch itself, ends in the [catch]. *)

Definition base : string := "http://localhost:8000".

(** [catch (err) { error = err instanceof Error ? err.message : '...' }] *)
Definition fetchOrders_guard (body : cmd unit) : cmd unit :=
  try_catch body
    (fun err => set_error (VStr (message_of "Failed to fetch orders" err))).

(** Lines 37-40: the two requests go out; the page state is not touched. *)
Definition fetchOrders_begin : cmd (list Request) :=
  ret [mkRequest "GET" (base ++ "/orders") None;
       mkRequest "GET" (base ++ "/totals") None].

(** Lines 42-46, when [Promise.all] settles: [true] when the function goes
    on to await [ordersRes.json()]. *)
Definition fetchOrders_responses (both : result (Response * Response)) : cmd bool :=
  fun st =>
    match both with
    | Throw e => (exec (fetchOrders_guard (throw e)) st, Ok false)
    | Ok (ordersRes, totalsRes) =>
        if negb (ok ordersRes) || negb (ok totalsRes)
        then (exec (fetchOrders_guard
                      (err <- eval (new_Error (VStr "Failed to fetch data from server")) ;;
                       throw err)) st,
              Ok false)
        else (st, Ok true)
    end.

(** Lines 46-56, when [ordersRes.json()] settles: [history] is assigned,
    then the function awaits [totalsRes.json()] ([true]). *)
Definition fetchOrders_orders (historyData : result value) : cmd bool :=
  fun st =>
    match historyData with
    | Throw e => (exec (fetchOrders_guard (throw e)) st, Ok false)
    | Ok data =>
        match array_map "historyData" mapHistoryItem data with
        | Throw e => (exec (fetchOrders_guard (throw e)) st, Ok false)
        | Ok mapped => (exec (set_history mapped) st, Ok true)
        end
    end.

(** Line 56, when [totalsRes.json()] settles. *)
Definition fetchOrders_totals (totalsData : result value) : cmd unit :=
  fetchOrders_guard (t <- eval totalsData ;; set_totals t).

(** The page states of one run of [fetchOrders] with nothing interleaved:
    the state at each suspension, then the state it ends in. *)
Definition fetchOrders_states (st : State) (both : result (Response * Response))
  : list State :=
  let s0 := exec fetchOrders_begin st in
  match fetchOrders_responses both s0 with
  | (s1, Ok true) =>
      match both with
      | Ok (ordersRes, totalsRes) =>
          match fetchOrders_orders (json ordersRes) s1 with
          | (s2, Ok true) =>
              [s0; s1; s2; exec (fetchOrders_totals (json totalsRes)) s2]
          | (s2, _) => [s0; s1; s2]
          end
      | Throw _ => [s0; s1]
      end
  | (s1, _) => [s0; s1]
  end.

Definition fetchOrders (st : State) (both : result (Response * Response)) : State :=
  last (fetchOrders_states st both) st.

(** ** [processOrder] (lines 73-118) *)

(** Lines 74-86: the two assignments and the request; the function then
    awaits [fetch]. *)
Definition processOrder_begin : cmd Request :=
  set_loading true ;;
  set_error (VStr "") ;;
  fun st =>
    (st, Ok (mkRequest "POST" (base ++ "/process-order")
               (Some (VObj [("message", VStr (message st))])))).

(** The [catch] and [finally] around every later stretch. *)
Definition processOrder_guard (body : cmd unit) : cmd unit :=
  try_finally
    (try_catch body
       (fun err => set_error (VStr (message_of "Failed to process order" err))))
    (set_loading false).

(** Lines 92-111, once [response.json()] has delivered [data]. *)
Definition processOrder_body (response_ok : bool) (data : value) : cmd unit :=
  if negb response_ok then
    detail <- eval (get data "detail") ;;
    what <- eval (js_or detail (Ok (VStr "Failed to process order"))) ;;
    err <- eval (new_Error what) ;;
    throw err
  else
    status <- eval (get data "status") ;;
    if is_string status "error" then
      display_message <- eval (get data "display_message") ;;
      shown <- eval (js_or display_message (get data "message")) ;;
      set_error shown
    else
      items <- eval (get data "history") ;;
      mapped <- eval (array_map "data.history" mapHistoryItem items) ;;
      set_history mapped ;;
      new_totals <- eval (get data "totals") ;;
      set_totals new_totals ;;
      set_message "".

(** What the function does when the request settles: [fetch] rejects, or
    it resolves (lines 88-89 touch no page state) and [response.json()]
    rejects or delivers. *)
Definition processOrder_settle (net : result Response) : cmd unit :=
  match net with
  | Throw e => processOrder_guard (throw e)
  | Ok response =>
      match json response with
      | Throw e => processOrder_guard (throw e)
      | Ok data => processOrder_guard (processOrder_body (ok response) data)
      end
  end.

(** The page states of one submit with nothing interleaved: while [fetch]
    is awaited, while [response.json()] is awaited (when [fetch] resolved),
    and at the end. *)
Definition processOrder_states (st : State) (net : result Response) : list State :=
  let s1 := exec processOrder_begin st in
  match net with
  | Throw _ => [s1; exec (processOrder_settle net) s1]
  | Ok _ => [s1; s1; exec (processOrder_settle net) s1]
  end.

Definition processOrder (st : State) (net : result Response) : State :=
  exec (processOrder_settle net) (exec processOrder_begin st).

(** ** [handleSubmit] (lines 63-71) *)

(** The WhiteSpace and LineTerminator code points that
    [String.prototype.trim] strips, by the bytes of their UTF-8 form:
    U+0009 to U+000D and U+0020 in one byte; U+00A0 in two; U+1680,
    U+2000 to U+200A, U+2028, U+2029, U+202F, U+205F, U+3000 and U+FEFF in
    three. *)
Definition space1 (c : ascii) : bool :=
  match nat_of_ascii c with
  | 9%nat | 10%nat | 11%nat | 12%nat | 13%nat | 32%nat => true
  | _ => false
  end.

Definition space2 (c1 c2 : ascii) : bool :=
  (nat_of_ascii c1 =? 194)%nat && (nat_of_ascii c2 =? 160)%nat.

Definition space3 (c1 c2 c3 : ascii) : bool :=
  let b1 := nat_of_ascii c1 in
  let b2 := nat_of_ascii c2 in
  let b3 := nat_of_ascii c3 in
  ((b1 =? 225) && (b2 =? 154) && (b3 =? 128)
   || (b1 =? 226) && (b2 =? 128)
      && ((128 <=? b3) && (b3 <=? 138) || (b3 =? 168) || (b3 =? 169) || (b3 =? 175))
   || (b1 =? 226) && (b2 =? 129) && (b3 =? 159)
   || (b1 =? 227) && (b2 =? 128) && (b3 =? 128)
   || (b1 =? 239) && (b2 =? 187) && (b3 =? 191))%nat.

(** A text made of white space only. *)
Fixpoint blank (s : string) : bool :=
  match s with
  | EmptyString => true
  | String c1 r1 =>
      if space1 c1 then blank r1
      else
        match r1 with
        | EmptyString => false
        | String c2 r2 =>
            if space2 c1 c2 then blank r2
            else
              match r2 with
              | EmptyString => false
              | String c3 r3 => if space3 c1 c2 c3 then blank r3 else false
              end
        end
  end.

Fixpoint trimStart (s : string) : string :=
  match s with
  | EmptyString => EmptyString
  | String c1 r1 =>
      if space1 c1 then trimStart r1
      else
        match r1 with
        | EmptyString => s
        | String c2 r2 =>
            if space2 c1 c2 then trimStart r2
            else
              match r2 with
              | EmptyString => s
              | String c3 r3 => if space3 c1 c2 c3 then trimStart r3 else s
              end
        end
  end.

(** The text up to its last code point that is not white space: what
    follows a byte is dropped once it is all white space. *)
Fixpoint trimEnd (s : string) : string :=
  match s with
  | EmptyString => EmptyString
  | String c rest => if blank s then EmptyString else String c (trimEnd rest)
  end.

Definition trim (s : string) : string := trimEnd (trimStart s).

(** The handler: the new page state and the requests it sends.
    [event.preventDefault()] and the console are outside the page state. *)
Definition handleSubmit (st : State) : State * list Request :=
  if negb (truthy (VStr (trim (message st)))) then (st, [])
  else
    match processOrder_begin st with
    | (st', Ok request) => (st', [request])
    | (st', Throw _) => (st', [])
    end.

(** ** The history panel (lines 179-209) *)

(** Rendered markup.  [Expr v] is a [{expression}] of the template with the
    value it shows; [LocalTime t] is the text of [toLocaleString()] on the
    date made from the primitive [t], which depends on the locale. *)
Inductive html : Type :=
| Text (s : string)
| Expr (v : value)
| LocalTime (timestamp : value)
| El (tag cls : string) (children : list html).

(** [item.actionType === 'cancel'] *)
Definition is_cancel (item : value) : result bool :=
  let* actionType := get item "actionType" in
  Ok (is_string actionType "cancel").

(** Line 184: the class of the row. *)
Definition row_class (item : value) : result string :=
  let* cancel := is_cancel item in
  Ok ("flex justify-between items-center p-4 rounded-lg " ++
      (if cancel then "bg-red-50 border border-red-200" else "bg-gray-50")).

(** Lines 187-191: the label. *)
Definition row_label (item : value) : result (list html) :=
  let* cancel := is_cancel item in
  if cancel then
    let* id := get item "id" in
    Ok [El "span" "text-red-600" [Text "#"; Expr id; Text " - Cancelled"]]
  else
    let* id := get item "id" in
    let* actionType := get item "actionType" in
    Ok [Text "#"; Expr id; Text " - "; Expr actionType].

(** [item => `${item.quantity} ${item.itemType}`] *)
Definition item_text (item : value) : result string :=
  let* quantity := get item "quantity" in
  let* quantity_text := to_string quantity in
  let* itemType := get item "itemType" in
  let* itemType_text := to_string itemType in
  Ok (quantity_text ++ " " ++ itemType_text).

(** [item.items.map(...).join(', ')] *)
Definition item_list (item : value) : result string :=
  let* items := get item "items" in
  let* texts := array_map "item.items" item_text items in
  Ok (join ", " texts).

(** [item.actionType === 'cancel' && item.display_message] as a condition. *)
Definition shows_message (item : value) : result bool :=
  let* cancel := is_cancel item in
  if cancel then
    let* display_message := get item "display_message" in
    Ok (truthy display_message)
  else Ok false.

(** Lines 196-204: the right-hand cell. *)
Definition row_detail (item : value) : result html :=
  let* message_shown := shows_message item in
  if message_shown then
    let* display_message := get item "display_message" in
    Ok (El "span" "font-medium text-red-600" [Expr display_message])
  else
    let* listing := item_list item in
    Ok (El "span" "" [Expr (VStr listing)]).

(** [new Date(v)]: the primitive the date is made from.  An object or an
    array is converted to one first, which throws where ToString does. *)
Definition new_Date (v : value) : result value :=
  match v with
  | VArr _ | VObj _ =>
      let* text := to_string v in
      Ok (VStr text)
  | _ => Ok v
  end.

(** Lines 184-206: one row. *)
Definition render_row (item : value) : result html :=
  let* cls := row_class item in
  let* label := row_label item in
  let* timestamp := get item "timestamp" in
  let* date := new_Date timestamp in
  let* detail := row_detail item in
  Ok (El "div" cls
        [El "div" "flex flex-col"
           [El "span" "font-medium" label;
            El "span" "text-sm text-gray-500" [LocalTime date]];
         El "div" "flex flex-col items-end" [detail]]).


(** ** The totals panel (lines 124-151)

    [Card], [CardHeader], [CardTitle] and [CardContent] are components of
    the UI library; they appear as elements with the component's name. *)



(** ** The order form (lines 153-172)

    What the template binds to the page state: the value and [disabled] of
    the input, [disabled] and label of the button, and the error banner of
    the [{#if error}] block. *)

Record Form : Type := mkForm {
  input_value : string;
  input_disabled : bool;
  button_disabled : bool;
  button_label : string;
  banner : option html
}.

Definition render_form (st : State) : Form :=
  mkForm (message st) (loading st) (loading st)
    (if loading st then "Processing..." else "Run")
    (if truthy (error st)
     then Some (El "div" "mt-2 p-3 bg-red-50 border border-red-200 rounded-md"
                  [El "p" "text-red-600" [Expr (error st)]])
     else None).

(** ** The page as a machine

    What can happen to the page, one synchronous stretch of the script per
    event.  Any event is allowed at any time: this includes every order in
    which the browser can run the stretches. *)

Inductive event : Type :=
| Typed (text : string)                               (* [bind:value={message}] *)
| Submitted                                           (* [on:submit] *)
| SubmitSettled (net : result Response)               (* [processOrder] resumes *)
| FetchResponded (both : result (Response * Response)) (* [Promise.all] settles *)
| OrdersRead (historyData : result value)             (* [ordersRes.json()] settles *)
| TotalsRead (totalsData : result value).             (* [totalsRes.json()] settles *)

Definition step (st : State) (ev : event) : State :=
  match ev with
  | Typed text => exec (set_message text) st
  | Submitted => fst (handleSubmit st)
  | SubmitSettled net => exec (processOrder_settle net) st
  | FetchResponded both => exec (fetchOrders_responses both) st
  | OrdersRead historyData => exec (fetchOrders_orders historyData) st
  | TotalsRead totalsData => exec (fetchOrders_totals totalsData) st
  end.

Definition run (events : list event) (st : State) : State :=
  fold_left step events st.

(** ** Vocabulary of the properties *)

(** What the mapper needs of a record: an object whose [items] is an array
    without [null] or [undefined] elements. *)
Definition mappable (record : value) : bool :=
  match record with
  | VObj fields =>
      match lookup "items" fields with
      | Some (VArr items) => forallb (fun item => negb (nullish item)) items
      | _ => false
      end
  | _ => false
  end.

(** The value of a property of an object, [undefined] when it has none. *)
Definition field (k : string) (fields : list (string * value)) : value :=
  match lookup k fields with
  | Some x => x
  | None => VUndefined
  end.

(** A UI item record with the given [itemType] and [quantity]. *)
Definition ui_item (p : value * value) : value :=
  VObj [("itemType", fst p); ("quantity", snd p)].

(** A submit fails in transport when [fetch] rejects, when the response is
    not 2xx, or when its body cannot be read as JSON. *)
Definition failed (net : result Response) : bool :=
  match net with
  | Throw _ => true
  | Ok response =>
      negb (ok response) ||
      match json response with
      | Throw _ => true
      | Ok _ => false
      end
  end.

(** The item listing the panel is to show, for items given by the texts
    of their item type and quantity: each as its quantity, a space and its
    item type, with a comma and a space between two items. *)
Fixpoint listing (texts : list (string * string)) : string :=
  match texts with
  | [] => EmptyString
  | (itemType, quantity) :: rest =>
      match rest with
      | [] => quantity ++ " " ++ itemType
      | _ :: _ => quantity ++ " " ++ itemType ++ ", " ++ listing rest
      end
  end.

(** The items [pairs] (item type, quantity) print as [texts]. *)
Definition printed (pairs : list (value * value)) (texts : list (string * string)) : Prop :=
  Forall2 (fun p t => to_string (fst p) = Ok (fst t) /\ to_string (snd p) = Ok (snd t))
    pairs texts.

(** A value that can be turned into text: no object with a [toString]
    property of its own, by itself or as an element of an array. *)
Fixpoint plain (v : value) : bool :=
  match v with
  | VArr xs => forallb (fun x => nullish x || plain x) xs
  | VObj fields =>
      match lookup "toString" fields with
      | Some _ => false
      | None => true
      end
  | _ => true
  end.

(** Items (item type, quantity) that can all be turned into text. *)
Definition plain_pairs (pairs : list (value * value)) : bool :=
  forallb (fun p => plain (snd p) && plain (fst p)) pairs.

(** The text an element contributes to the text of its array. *)
Definition element_text (x : value) : result string :=
  if nullish x then Ok EmptyString else to_string x.

(** [v.k] where the read cannot throw, [undefined] otherwise. *)
Definition prop (v : value) (k : string) : value :=
  match get v k with
  | Ok x => x
  | Throw _ => VUndefined
  end.


(** The UI item of a wire item. *)
Definition wire_pair (item : value) : value * value :=
  (prop item "item_type", prop item "quantity").


(** The first fetch fails when [Promise.all] rejects or either response is
    not 2xx. *)
Definition fetch_failed (both : result (Response * Response)) : bool :=
  match both with
  | Throw _ => true
  | Ok (ordersRes, totalsRes) => negb (ok ordersRes) || negb (ok totalsRes)
  end.

Definition is_submit (ev : event) : bool :=
  match ev with
  | Submitted => true
  | _ => false
  end.

(** ** Sample records, responses and page states *)

(** U+00A0 and U+3000, in UTF-8. *)
Definition no_break_space : string :=
  String (ascii_of_nat 194) (String (ascii_of_nat 160) EmptyString).

Definition wide_space : string :=
  String (ascii_of_nat 227) (String (ascii_of_nat 128) (String (ascii_of_nat 128) EmptyString)).

Definition burger_order : value :=
  VObj [("id", VNum "1"); ("action_type", VStr "order");
        ("items", VArr [VObj [("item_type", VStr "burger"); ("quantity", VNum "1")];
                        VObj [("item_type", VStr "fries"); ("quantity", VNum "1")]]);
        ("timestamp", VStr "2025-01-01T12:00:00")].

Definition cancel_entry : value :=
  VObj [("id", VNum "2"); ("action_type", VStr "cancel"); ("items", VArr []);
        ("timestamp", VStr "2025-01-01T12:05:00");
        ("display_message", VStr "Order #2 cancelled")].

Definition order_placed : Response :=
  mkResponse 200
    (Ok (VObj [("status", VStr "success");
               ("history", VArr [burger_order]);
               ("totals", VObj [("burger", VNum "1"); ("fries", VNum "1"); ("drink", VNum "0")])])).

Definition typed (text : string) : State :=
  mkState text (history initial) (totals initial) false (VStr "").

Definition order_not_found : Response :=
  mkResponse 404 (Ok (VObj [("detail", VStr "Order not found")])).

(** A 422 whose [detail] is an object that cannot be turned into text. *)
Definition detail_without_text : Response :=
  mkResponse 422 (Ok (VObj [("detail", VObj [("toString", VNum "1")])])).

Definition order_rejected : Response :=
  mkResponse 200
    (Ok (VObj [("status", VStr "error");
               ("message", VStr "No valid items");
               ("display_message", VStr "Sorry, we only serve burgers, fries and drinks")])).

Definition ui_burger_order : value :=
  VObj [("id", VNum "1"); ("action_type", VStr "order");
        ("items", VArr [ui_item (VStr "burger", VNum "1");
                        ui_item (VStr "fries", VNum "1")]);
        ("timestamp", VStr "2025-01-01T12:00:00");
        ("actionType", VStr "order");
        ("display_message", VUndefined)].

Definition orders_reply : Response :=
  mkResponse 200 (Ok (VArr [burger_order])).

Definition totals_reply : Response :=
  mkResponse 200
    (Ok (VObj [("burger", VNum "1"); ("fries", VNum "1"); ("drink", VNum "0")])).

(** A 200 response to [/totals] whose body cannot be read as JSON. *)
Definition totals_cut_short : Response :=
  mkResponse 200 (Throw (Error "SyntaxError" "Unexpected end of JSON input")).




(** * Properties *)

(** ** Worked examples *)

Example mapHistoryItem_burger_order :
  mapHistoryItem burger_order =
  Ok (VObj [("id", VNum "1"); ("action_type", VStr "order");
            ("items", VArr [VObj [("itemType", VStr "burger"); ("quantity", VNum "1")];
                            VObj [("itemType", VStr "fries"); ("quantity", VNum "1")]]);
            ("timestamp", VStr "2025-01-01T12:00:00");
            ("actionType", VStr "order");
            ("display_message", VUndefined)]).
Proof. reflexivity. Qed.

Example render_burger_order :
  (let* ui := mapHistoryItem burger_order in row_detail ui) =
  Ok (El "span" "" [Expr (VStr "1 burger, 1 fries")]).
Proof. reflexivity. Qed.

Example render_cancel_entry :
  (let* ui := mapHistoryItem cancel_entry in render_row ui) =
  Ok (El "div" "flex justify-between items-center p-4 rounded-lg bg-red-50 border border-red-200"
        [El "div" "flex flex-col"
           [El "span" "font-medium"
              [El "span" "text-red-600" [Text "#"; Expr (VNum "2"); Text " - Cancelled"]];
            El "span" "text-sm text-gray-500" [LocalTime (VStr "2025-01-01T12:05:00")]];
         El "div" "flex flex-col items-end"
           [El "span" "font-medium text-red-600" [Expr (VStr "Order #2 cancelled")]]]).
Proof. reflexivity. Qed.

Example to_string_values :
  map to_string [VNum "0"; VNum "1e+21"; VNum "-0.5"; VUndefined; VNull; VBool true;
                 VArr [VNum "1"; VNull; VStr "a"; VArr [VObj []]]; VObj [];
                 VObj [("toString", VNum "1")];
                 VArr [VNum "1"; VObj [("toString", VNull)]]] =
  [Ok "0"; Ok "1e+21"; Ok "-0.5"; Ok "undefined"; Ok "null"; Ok "true";
   Ok "1,,a,[object Object]"; Ok "[object Object]";
   Throw (type_error "Cannot convert object to primitive value");
   Throw (type_error "Cannot convert object to primitive value")]%list.
Proof. reflexivity. Qed.

Example trim_text :
  map trim ["  one burger "; "   "; "a b"; no_break_space ++ "a" ++ wide_space]
  = ["one burger"; EmptyString; "a b"; "a"]%list.
Proof. reflexivity. Qed.

Example blank_text :
  map blank [EmptyString; no_break_space; wide_space ++ " " ++ no_break_space;
             no_break_space ++ "a"; String (ascii_of_nat 160) EmptyString]
  = [true; true; true; false; false]%list.
Proof. reflexivity. Qed.

Example render_unprintable_rows :
  map (fun record => let* ui := mapHistoryItem record in render_row ui)
    [VObj [("items", VArr [VObj [("quantity", VObj [("toString", VNum "1")])]]);
           ("timestamp", VStr "2025-01-01T12:00:00")];
     VObj [("items", VArr []); ("timestamp", VObj [("toString", VNull)])]]
  = [Throw (type_error "Cannot convert object to primitive value");
     Throw (type_error "Cannot convert object to primitive value")]%list.
Proof. reflexivity. Qed.

Example render_large_quantity :
  (let* ui := mapHistoryItem
                (VObj [("items", VArr [VObj [("quantity", VNum "1e+21");
                                             ("item_type", VStr "burger")]])]) in
   row_detail ui) = Ok (El "span" "" [Expr (VStr "1e+21 burger")]).
Proof. reflexivity. Qed.

Example handleSubmit_sends :
  handleSubmit (typed "one burger") =
  (mkState "one burger" [] (totals initial) true (VStr EmptyString),
   [mkRequest "POST" "http://localhost:8000/process-order"
      (Some (VObj [("message", VStr "one burger")]))]).
Proof. reflexivity. Qed.

(** ** Objects *)

Lemma lookup_assign_same (k : string) (v : value) (fields : list (string * value)) :
  lookup k (assign k v fields) = Some v.
Proof.
  induction fields as [|[k' v'] rest IH]; simpl.
  - now rewrite String.eqb_refl.
  - destruct (String.eqb_spec k' k) as [->|Hne]; simpl.
    + now rewrite String.eqb_refl.
    + destruct (String.eqb_spec k' k); [contradiction|exact IH].
Qed.

Lemma lookup_assign_other (k k' : string) (v : value) (fields : list (string * value)) :
  k <> k' -> lookup k' (assign k v fields) = lookup k' fields.
Proof.
  intros Hne. induction fields as [|[k0 v0] rest IH]; simpl.
  - destruct (String.eqb_spec k k'); [contradiction|reflexivity].
  - destruct (String.eqb_spec k0 k) as [->|Hk0]; simpl.
    + destruct (String.eqb_spec k k'); [contradiction|reflexivity].
    + destruct (String.eqb_spec k0 k'); [reflexivity|exact IH].
Qed.

Lemma assign_same_value (k : string) (v : value) (fields : list (string * value)) :
  lookup k fields = Some v -> assign k v fields = fields.
Proof.
  induction fields as [|[k' v'] rest IH]; simpl; [discriminate|].
  destruct (String.eqb_spec k' k) as [->|Hne].
  - now intros [= ->].
  - intros H. now rewrite IH.
Qed.

Lemma get_object (fields : list (string * value)) (k : string) :
  get (VObj fields) k =
  Ok (match lookup k fields with Some x => x | None => VUndefined end).
Proof. simpl. now destruct (lookup k fields). Qed.

Lemma get_not_nullish (v : value) (k : string) :
  nullish v = false -> exists x, get v k = Ok x.
Proof.
  destruct v; simpl; try discriminate; intros _; eauto.
  destruct (lookup k fields); eauto.
Qed.

(** ** The mapper *)

Lemma mapOrderItem_total (items : list value) :
  forallb (fun item => negb (nullish item)) items = true ->
  exists mapped, mapM mapOrderItem items = Ok mapped /\
                 List.length mapped = List.length items.
Proof.
  induction items as [|item rest IH]; cbn [mapM forallb].
  - intros _. now exists [].
  - intros H. apply andb_prop in H as [Hitem Hrest].
    destruct (IH Hrest) as (mapped & Hmapped & Hlen).
    unfold mapOrderItem.
    destruct (get_not_nullish item "item_type") as [t Ht];
      [now destruct (nullish item)|].
    destruct (get_not_nullish item "quantity") as [q Hq];
      [now destruct (nullish item)|].
    rewrite Ht, Hq. cbn [bind]. fold mapOrderItem. rewrite Hmapped. cbn [bind].
    eexists. split; [reflexivity|]. simpl. now rewrite Hlen.
Qed.

Lemma mapOrderItem_throws (items : list value) :
  forallb (fun item => negb (nullish item)) items = false ->
  exists e, mapM mapOrderItem items = Throw e.
Proof.
  induction items as [|item rest IH]; simpl; [discriminate|].
  intros H. apply andb_false_iff in H as [Hitem|Hrest].
  - destruct item; try discriminate; simpl; eauto.
  - destruct (IH Hrest) as [e He]. rewrite He.
    destruct (mapOrderItem item); simpl; eauto.
Qed.

(** The mapper succeeds on mappable records, with this result. *)
Lemma mapHistoryItem_mappable (fields : list (string * value)) :
  mappable (VObj fields) = true ->
  exists items mapped,
    lookup "items" fields = Some (VArr items) /\
    mapM mapOrderItem items = Ok mapped /\
    mapHistoryItem (VObj fields) =
    Ok (VObj (assign "display_message" (field "display_message" fields)
               (assign "items" (VArr mapped)
                 (assign "actionType" (field "action_type" fields) fields)))).
Proof.
  unfold mappable. intros H.
  destruct (lookup "items" fields) as [[| | | | |items|]|] eqn:Hitems; try discriminate.
  destruct (mapOrderItem_total items H) as (mapped & Hmapped & _).
  exists items, mapped. repeat split; trivial.
  unfold mapHistoryItem. rewrite !get_object, Hitems. simpl.
  rewrite Hmapped. reflexivity.
Qed.

(** It throws on every other value. *)
Lemma mapHistoryItem_throws (record : value) :
  mappable record = false -> exists e, mapHistoryItem record = Throw e.
Proof.
  unfold mapHistoryItem.
  destruct record; simpl; eauto.
  intros H.
  destruct (lookup "action_type" fields); simpl;
    (destruct (lookup "items" fields) as [[| | | | |items|]|]; simpl; eauto;
     destruct (mapOrderItem_throws items H) as [e He]; rewrite He; simpl; eauto).
Qed.

Lemma mapM_mapHistoryItem_total (records : list value) :
  forallb mappable records = true ->
  exists mapped, mapM mapHistoryItem records = Ok mapped /\
                 Forall2 (fun record ui => mapHistoryItem record = Ok ui) records mapped.
Proof.
  induction records as [|record rest IH]; simpl.
  - intros _. exists []. split; [reflexivity|constructor].
  - intros H. apply andb_prop in H as [Hrecord Hrest].
    destruct (IH Hrest) as (mapped & Hmapped & Hall).
    destruct record; try discriminate.
    destruct (mapHistoryItem_mappable fields Hrecord) as (items & its & _ & _ & Hui).
    rewrite Hui. simpl. rewrite Hmapped. simpl.
    eexists. split; [reflexivity|]. constructor; assumption.
Qed.

Lemma mapOrderItem_shape (items mapped : list value) :
  mapM mapOrderItem items = Ok mapped ->
  exists pairs, mapped = map ui_item pairs.
Proof.
  revert mapped. induction items as [|item rest IH]; cbn [mapM]; intros mapped.
  - intros [= <-]. now exists [].
  - unfold mapOrderItem at 1.
    destruct (get item "item_type") as [t|]; cbn [bind]; [|discriminate].
    destruct (get item "quantity") as [q|]; cbn [bind]; [|discriminate].
    destruct (mapM mapOrderItem rest) as [ys|]; cbn [bind]; [|discriminate].
    intros [= <-]. destruct (IH ys eq_refl) as [pairs ->].
    now exists ((t, q) :: pairs).
Qed.

Lemma mapOrderItem_again (pairs : list (value * value)) :
  mapM mapOrderItem (map ui_item pairs) =
  Ok (map (fun p => ui_item (VUndefined, snd p)) pairs).
Proof.
  induction pairs as [|[t q] rest IH]; cbn [mapM map]; [reflexivity|].
  rewrite IH. reflexivity.
Qed.

Lemma mapHistoryItem_object (record ui : value) :
  mapHistoryItem record = Ok ui ->
  exists fields, record = VObj fields /\ mappable record = true.
Proof.
  intros H. destruct (mappable record) eqn:Hm.
  - destruct record; try discriminate. eauto.
  - destruct (mapHistoryItem_throws record Hm) as [e He]. congruence.
Qed.

(** C7: the mapper is total on backend history records and tolerates an
    absent [display_message].  For every record of the wire shape (an
    object whose [items] is an array of item records) the mapper returns a
    UI record without throwing; the UI record always has a
    [display_message] property, holding the record's display message, and
    holding [undefined] when the record has none. *)
Theorem mapHistoryItem_total (fields : list (string * value)) :
  mappable (VObj fields) = true ->
  exists ui,
    mapHistoryItem (VObj fields) = Ok (VObj ui) /\
    lookup "display_message" ui = Some (field "display_message" fields) /\
    (lookup "display_message" fields = None ->
     get (VObj ui) "display_message" = Ok VUndefined).
Proof.
  intros Hm.
  destruct (mapHistoryItem_mappable fields Hm) as (items & mapped & _ & _ & Hui).
  eexists. split; [exact Hui|].
  split; [apply lookup_assign_same|].
  intros Habsent. rewrite get_object, lookup_assign_same.
  unfold field. now rewrite Habsent.
Qed.

Lemma mapHistoryItem_total_witness :
  mappable burger_order = true /\
  exists ui,
    mapHistoryItem burger_order = Ok (VObj ui) /\
    lookup "display_message" ui = Some VUndefined /\
    (lookup "display_message"
       [("id", VNum "1"); ("action_type", VStr "order");
        ("items", VArr [VObj [("item_type", VStr "burger"); ("quantity", VNum "1")];
                        VObj [("item_type", VStr "fries"); ("quantity", VNum "1")]]);
        ("timestamp", VStr "2025-01-01T12:00:00")] = None ->
     get (VObj ui) "display_message" = Ok VUndefined).
Proof.
  split; [reflexivity|].
  exact (mapHistoryItem_total _ (eq_refl : mappable burger_order = true)).
Defined.

(** C8, as stated, fails: mapping an already-mapped record does not give
    back the once-mapped record when the record has items. *)
Lemma mapHistoryItem_not_idempotent :
  (let* ui := mapHistoryItem burger_order in mapHistoryItem ui)
  <> mapHistoryItem burger_order.
Proof. vm_compute. discriminate. Qed.

(** C8, amended: applying the mapper to an already-mapped record succeeds
    and leaves every top-level property other than [items] as it was; each
    nested item keeps its [quantity] but its [itemType] becomes [undefined]
    (a mapped item has no [item_type] any more).  The result is the
    once-mapped record again exactly when no item had an item type, in
    particular when [items] is empty. *)
Theorem mapHistoryItem_again (record ui : value) :
  mapHistoryItem record = Ok ui ->
  exists (pairs : list (value * value)) (ui2 : value),
    get ui "items" = Ok (VArr (map ui_item pairs)) /\
    mapHistoryItem ui = Ok ui2 /\
    get ui2 "items" = Ok (VArr (map (fun p => ui_item (VUndefined, snd p)) pairs)) /\
    (forall k, k <> "items" -> get ui2 k = get ui k) /\
    ((forall p, In p pairs -> fst p = VUndefined) <-> ui2 = ui).
Proof.
  intros Hui.
  destruct (mapHistoryItem_object record ui Hui) as (fields & -> & Hm).
  destruct (mapHistoryItem_mappable fields Hm) as (items & mapped & _ & Hmapped & Hui').
  rewrite Hui in Hui'. injection Hui' as ->.
  destruct (mapOrderItem_shape items mapped Hmapped) as [pairs ->].
  set (A := field "action_type" fields).
  set (D := field "display_message" fields).
  set (uif := assign "display_message" D
                (assign "items" (VArr (map ui_item pairs))
                   (assign "actionType" A fields))).
  assert (Hitems : lookup "items" uif = Some (VArr (map ui_item pairs))).
  { unfold uif. rewrite lookup_assign_other by discriminate.
    apply lookup_assign_same. }
  assert (Haction : lookup "actionType" uif = Some A).
  { unfold uif. rewrite !lookup_assign_other by discriminate.
    apply lookup_assign_same. }
  assert (Hdm : lookup "display_message" uif = Some D).
  { unfold uif. apply lookup_assign_same. }
  assert (Hat : field "action_type" uif = A).
  { unfold field, uif. now rewrite !lookup_assign_other by discriminate. }
  assert (Hui2 : mapHistoryItem (VObj uif) =
                 Ok (VObj (assign "display_message" D
                            (assign "items"
                               (VArr (map (fun p => ui_item (VUndefined, snd p)) pairs))
                               uif)))).
  { unfold mapHistoryItem. rewrite !get_object, Hitems, Hdm. fold (field "action_type" uif).
    rewrite Hat. cbn [bind array_map spread].
    rewrite mapOrderItem_again. cbn [bind].
    now rewrite (assign_same_value "actionType" A uif Haction). }
  exists pairs. eexists. split; [now rewrite get_object, Hitems|].
  split; [exact Hui2|].
  split.
  { rewrite get_object, lookup_assign_other by discriminate.
    now rewrite lookup_assign_same. }
  split.
  { intros k Hk. rewrite !get_object.
    destruct (String.eqb_spec "display_message" k) as [<-|Hne].
    - now rewrite lookup_assign_same, Hdm.
    - rewrite lookup_assign_other by assumption.
      rewrite lookup_assign_other by congruence. reflexivity. }
  split.
  - intros Hall.
    assert (Hsame : map (fun p => ui_item (VUndefined, snd p)) pairs = map ui_item pairs).
    { apply map_ext_in. intros [t q] Hin. specialize (Hall _ Hin). simpl in Hall.
      now subst t. }
    rewrite Hsame.
    rewrite (assign_same_value "items" _ uif Hitems).
    now rewrite (assign_same_value "display_message" D uif Hdm).
  - intros Heq p Hin.
    assert (Hget : get (VObj (assign "display_message" D
                     (assign "items"
                        (VArr (map (fun p => ui_item (VUndefined, snd p)) pairs)) uif)))
                     "items" = get (VObj uif) "items") by now rewrite Heq.
    rewrite !get_object, Hitems in Hget.
    rewrite lookup_assign_other, lookup_assign_same in Hget by discriminate.
    injection Hget as Hmap.
    clear - Hmap Hin. induction pairs as [|[t q] rest IH]; [contradiction|].
    simpl in Hmap. injection Hmap as Ht Hrest.
    destruct Hin as [<-|Hin]; [now simpl|]. now apply IH.
Qed.

Lemma mapHistoryItem_again_witness :
  exists (pairs : list (value * value)) (ui2 : value),
    get (VObj [("id", VNum "2"); ("action_type", VStr "cancel"); ("items", VArr []);
               ("timestamp", VStr "2025-01-01T12:05:00");
               ("display_message", VStr "Order #2 cancelled");
               ("actionType", VStr "cancel")]) "items"
    = Ok (VArr (map ui_item pairs)) /\
    mapHistoryItem
      (VObj [("id", VNum "2"); ("action_type", VStr "cancel"); ("items", VArr []);
             ("timestamp", VStr "2025-01-01T12:05:00");
             ("display_message", VStr "Order #2 cancelled");
             ("actionType", VStr "cancel")]) = Ok ui2 /\
    get ui2 "items" = Ok (VArr (map (fun p => ui_item (VUndefined, snd p)) pairs)) /\
    (forall k, k <> "items" ->
       get ui2 k =
       get (VObj [("id", VNum "2"); ("action_type", VStr "cancel"); ("items", VArr []);
                  ("timestamp", VStr "2025-01-01T12:05:00");
                  ("display_message", VStr "Order #2 cancelled");
                  ("actionType", VStr "cancel")]) k) /\
    ((forall p, In p pairs -> fst p = VUndefined) <->
     ui2 = VObj [("id", VNum "2"); ("action_type", VStr "cancel"); ("items", VArr []);
                 ("timestamp", VStr "2025-01-01T12:05:00");
                 ("display_message", VStr "Order #2 cancelled");
                 ("actionType", VStr "cancel")]).
Proof.
  exact (mapHistoryItem_again cancel_entry _ eq_refl).
Defined.

(** ** The submit flow *)

Ltac run_cmd :=
  unfold processOrder, processOrder_settle, processOrder_guard, processOrder_body,
         processOrder_begin, fetchOrders_guard, try_finally, try_catch, seq, eval,
         throw, ret, exec, set_message, set_history, set_totals, set_loading,
         set_error;
  cbn [fst snd message history totals loading error negb].

Lemma processOrder_guard_releases (body : cmd unit) (st : State) :
  loading (exec (processOrder_guard body) st) = false.
Proof.
  unfold processOrder_guard, try_finally, try_catch, exec, set_loading, set_error.
  destruct (body st) as [st' [u|e]]; reflexivity.
Qed.

Lemma processOrder_settle_releases (net : result Response) (st : State) :
  loading (exec (processOrder_settle net) st) = false.
Proof.
  unfold processOrder_settle.
  destruct net as [response|e]; [destruct (json response)|];
    apply processOrder_guard_releases.
Qed.

(** C1: after a submit whose response is successful and whose body is not
    an application error, [history] is exactly the response history mapped
    record by record, [totals] is exactly the response totals, and
    [message] is empty; nothing of the previous [history] or [totals] is
    left.  The response is a valid one: its [history] is an array of
    records of the wire shape. *)
Theorem processOrder_success
    (st : State) (response : Response) (data status_field : value)
    (records : list value) :
  ok response = true ->
  json response = Ok data ->
  get data "status" = Ok status_field ->
  is_string status_field "error" = false ->
  get data "history" = Ok (VArr records) ->
  forallb mappable records = true ->
  let st' := processOrder st (Ok response) in
  Forall2 (fun record ui => mapHistoryItem record = Ok ui) records (history st') /\
  get data "totals" = Ok (totals st') /\
  message st' = "" /\
  loading st' = false /\
  error st' = VStr "".
Proof.
  intros Hok Hjson Hstatus Hne Hhistory Hrecords.
  destruct (mapM_mapHistoryItem_total records Hrecords) as (mapped & Hmapped & Hall).
  destruct (get_not_nullish data "totals") as [t Ht].
  { destruct data; simpl in Hhistory; try discriminate; reflexivity. }
  run_cmd. rewrite Hjson, Hok, Hstatus. cbn [negb]. rewrite Hne, Hhistory.
  cbn [array_map]. rewrite Hmapped, Ht. cbn.
  repeat split; assumption.
Qed.

Lemma processOrder_success_witness :
  let st' := processOrder (typed "one burger and fries") (Ok order_placed) in
  Forall2 (fun record ui => mapHistoryItem record = Ok ui) [burger_order] (history st') /\
  get (VObj [("status", VStr "success");
             ("history", VArr [burger_order]);
             ("totals", VObj [("burger", VNum "1"); ("fries", VNum "1"); ("drink", VNum "0")])])
      "totals" = Ok (totals st') /\
  message st' = "" /\
  loading st' = false /\
  error st' = VStr "".
Proof.
  exact (processOrder_success (typed "one burger and fries") order_placed _
           (VStr "success") [burger_order]
           eq_refl eq_refl eq_refl eq_refl eq_refl eq_refl).
Defined.

(** C2: [loading] is set at the start of a submit and released on every
    way out.  In a run of [processOrder] every state in which the request
    is still in flight has [loading = true] and the state it ends in has
    [loading = false], whatever the outcome: [fetch] rejecting, the body
    failing to parse, a non-2xx status, an application error, a throw of
    the mapper, or success.  The last stretch releases [loading] from any
    page state. *)
Theorem processOrder_loading (st : State) (net : result Response) :
  loading (exec processOrder_begin st) = true /\
  (exists pending,
      processOrder_states st net = (pending ++ [processOrder st net])%list /\
      pending <> [] /\
      Forall (fun s => loading s = true) pending) /\
  loading (processOrder st net) = false /\
  (forall s, loading (exec (processOrder_settle net) s) = false).
Proof.
  split; [reflexivity|].
  split.
  - unfold processOrder_states, processOrder.
    destruct net as [response|e].
    + exists [exec processOrder_begin st; exec processOrder_begin st].
      split; [reflexivity|]. split; [discriminate|].
      repeat constructor.
    + exists [exec processOrder_begin st].
      split; [reflexivity|]. split; [discriminate|].
      repeat constructor.
  - split; [apply processOrder_settle_releases|].
    intros s. apply processOrder_settle_releases.
Qed.

(** C3: when the trimmed message is empty the submit handler does
    nothing: no request is sent and the page state, [error] and [loading]
    included, is the one it started from. *)
Theorem handleSubmit_empty (st : State) :
  trim (message st) = "" -> handleSubmit st = (st, []).
Proof.
  intros Hempty. unfold handleSubmit. now rewrite Hempty.
Qed.

Lemma handleSubmit_empty_witness :
  (trim (message (mkState "  " [] VNull true (VStr "Order not found"))) = "" /\
   handleSubmit (mkState "  " [] VNull true (VStr "Order not found")) =
   (mkState "  " [] VNull true (VStr "Order not found"), [])) /\
  (trim (no_break_space ++ " " ++ wide_space) = "" /\
   handleSubmit (mkState (no_break_space ++ " " ++ wide_space) [] VNull false (VStr "")) =
   (mkState (no_break_space ++ " " ++ wide_space) [] VNull false (VStr ""), [])).
Proof.
  split; (split; [reflexivity|]; apply handleSubmit_empty; reflexivity).
Defined.

(** C4: after a submit that ends in a transport failure or a non-2xx
    response, [history] and [totals] (and [message]) are as before,
    [loading] is released, and [error] is the failure message: the message
    of the rejection when [fetch] or the reading of the body rejects, the
    response's [detail] when it has a truthy one (as [new Error] turns it
    into text: a string is itself; when a detail cannot be turned into
    text, the message of that TypeError), and otherwise
    ['Failed to process order']. *)
Theorem processOrder_failure (st : State) (net : result Response) :
  failed net = true ->
  let st' := processOrder st net in
  history st' = history st /\
  totals st' = totals st /\
  message st' = message st /\
  loading st' = false /\
  error st' =
  VStr match net with
       | Throw e => message_of "Failed to process order" e
       | Ok response =>
           match json response with
           | Throw e => message_of "Failed to process order" e
           | Ok data =>
               match get data "detail" with
               | Throw e => message_of "Failed to process order" e
               | Ok detail =>
                   if truthy detail then
                     match to_string detail with
                     | Ok text => text
                     | Throw e => message_of "Failed to process order" e
                     end
                   else "Failed to process order"
               end
           end
       end.
Proof.
  intros Hfailed. destruct net as [response|e]; cbn [failed] in Hfailed.
  - run_cmd.
    destruct (json response) as [data|e]; run_cmd; [|repeat split].
    rewrite orb_false_r in Hfailed. apply negb_true_iff in Hfailed.
    rewrite Hfailed. run_cmd.
    destruct (get data "detail") as [detail|e]; [|repeat split].
    unfold js_or. destruct (truthy detail) eqn:Htruthy; [|cbn; repeat split].
    assert (Hnew : new_Error detail =
                   (let* text := to_string detail in Ok (Error "Error" text))).
    { destruct detail; try reflexivity. discriminate. }
    rewrite Hnew. destruct (to_string detail) as [text|e]; cbn; repeat split.
  - run_cmd. repeat split.
Qed.

Lemma processOrder_failure_witness :
  (let st' := processOrder (typed "cancel order #9") (Ok order_not_found) in
   history st' = [] /\
   totals st' = totals initial /\
   message st' = "cancel order #9" /\
   loading st' = false /\
   error st' = VStr "Order not found") /\
  (let st' := processOrder (typed "cancel order #9") (Ok detail_without_text) in
   history st' = [] /\
   totals st' = totals initial /\
   message st' = "cancel order #9" /\
   loading st' = false /\
   error st' = VStr "Cannot convert object to primitive value").
Proof.
  split.
  - exact (processOrder_failure (typed "cancel order #9") (Ok order_not_found) eq_refl).
  - exact (processOrder_failure (typed "cancel order #9") (Ok detail_without_text) eq_refl).
Defined.

(** C5, as stated, fails: a response [{status: 'error'}] that carries
    neither [display_message] nor [message] leaves [error] undefined, not
    set to any message. *)
Lemma processOrder_rejected_without_text :
  error (processOrder (typed "two shakes")
           (Ok (mkResponse 200 (Ok (VObj [("status", VStr "error")])))))
  = VUndefined /\
  ~ (exists text,
        error (processOrder (typed "two shakes")
                 (Ok (mkResponse 200 (Ok (VObj [("status", VStr "error")])))))
        = VStr text).
Proof.
  split; [reflexivity|]. intros [text H]. discriminate H.
Qed.

(** C5, amended: after a submit whose body has status ['error'], [error]
    is the body's [display_message] when that is truthy and otherwise the
    value of the body's [message] property; [history], [totals] and
    [message] are as before. *)
Theorem processOrder_rejected
    (st : State) (response : Response) (data display_message : value) :
  ok response = true ->
  json response = Ok data ->
  get data "status" = Ok (VStr "error") ->
  get data "display_message" = Ok display_message ->
  let st' := processOrder st (Ok response) in
  history st' = history st /\
  totals st' = totals st /\
  message st' = message st /\
  loading st' = false /\
  (truthy display_message = true -> error st' = display_message) /\
  (truthy display_message = false -> get data "message" = Ok (error st')).
Proof.
  intros Hok Hjson Hstatus Hdm.
  destruct (get_not_nullish data "message") as [m Hm].
  { destruct data; simpl in Hstatus; try discriminate; reflexivity. }
  run_cmd. rewrite Hjson, Hok, Hstatus. cbn [negb is_string String.eqb Ascii.eqb Bool.eqb].
  rewrite Hdm. unfold js_or.
  destruct (truthy display_message); rewrite ?Hm; cbn;
    repeat split; try discriminate; try reflexivity.
Qed.

Lemma processOrder_rejected_witness :
  let st' := processOrder (typed "two shakes") (Ok order_rejected) in
  history st' = [] /\
  totals st' = totals initial /\
  message st' = "two shakes" /\
  loading st' = false /\
  (truthy (VStr "Sorry, we only serve burgers, fries and drinks") = true ->
   error st' = VStr "Sorry, we only serve burgers, fries and drinks") /\
  (truthy (VStr "Sorry, we only serve burgers, fries and drinks") = false ->
   get (VObj [("status", VStr "error");
              ("message", VStr "No valid items");
              ("display_message", VStr "Sorry, we only serve burgers, fries and drinks")])
       "message" = Ok (error st')).
Proof.
  exact (processOrder_rejected (typed "two shakes") order_rejected _ _
           eq_refl eq_refl eq_refl eq_refl).
Defined.

(** ** [history] and [totals] together *)

(** A submit never separates the two: either both are as before, or both
    come from the one response body. *)
Lemma processOrder_both_or_neither (st : State) (net : result Response) :
  let st' := processOrder st net in
  (history st' = history st /\ totals st' = totals st) \/
  (exists response data records,
      net = Ok response /\ json response = Ok data /\
      get data "history" = Ok records /\
      array_map "data.history" mapHistoryItem records = Ok (history st') /\
      get data "totals" = Ok (totals st')).
Proof.
  destruct net as [response|e]; run_cmd; [|now left].
  destruct (json response) as [data|e] eqn:Hjson; run_cmd; [|now left].
  destruct (ok response); cbn [negb].
  - destruct (get data "status") as [status_field|e] eqn:Hstatus; [|now left].
    destruct (is_string status_field "error").
    + destruct (get data "display_message") as [dm|]; [|now left].
      destruct (js_or dm (get data "message")); now left.
    + destruct (get data "history") as [records|] eqn:Hhistory; [|now left].
      destruct (array_map "data.history" mapHistoryItem records) as [mapped|] eqn:Hmapped; [|now left].
      destruct (get data "totals") as [t|] eqn:Ht; cbn.
      * right. exists response, data, records. repeat split; assumption.
      * destruct data; simpl in Ht, Hstatus; try discriminate.
        destruct (lookup "totals" fields); discriminate.
  - destruct (get data "detail") as [detail|]; [|now left].
    destruct (js_or detail (Ok (VStr "Failed to process order"))) as [what|];
      [destruct (new_Error what)|]; now left.
Qed.

(** [fetchOrders] assigns [history] first: when the body of the totals
    response cannot be read, the new history stays with the old totals. *)
Lemma fetchOrders_history_first
    (st : State) (ordersRes totalsRes : Response) (data : value)
    (mapped : list value) (e : exn) :
  ok ordersRes = true ->
  ok totalsRes = true ->
  json ordersRes = Ok data ->
  array_map "historyData" mapHistoryItem data = Ok mapped ->
  json totalsRes = Throw e ->
  let st' := fetchOrders st (Ok (ordersRes, totalsRes)) in
  history st' = mapped /\
  totals st' = totals st /\
  error st' = VStr (message_of "Failed to fetch orders" e).
Proof.
  intros Ho Ht Hdata Hmapped Hcut.
  unfold fetchOrders, fetchOrders_states, fetchOrders_responses, fetchOrders_orders,
         fetchOrders_totals.
  rewrite Ho, Ht, Hdata, Hmapped, Hcut. cbn. repeat split.
Qed.

(** C6 does not hold of [fetchOrders]: it assigns [history] before it
    awaits the body of the totals response.  While that body is awaited the
    page holds the new history with the old totals, and when its parse
    rejects the page stays that way. *)
Theorem fetchOrders_partial_update :
  (exists waiting,
      fetchOrders_states initial (Ok (orders_reply, totals_reply)) =
      [initial; initial; waiting; fetchOrders initial (Ok (orders_reply, totals_reply))] /\
      history waiting = [ui_burger_order] /\
      totals waiting = totals initial /\
      totals (fetchOrders initial (Ok (orders_reply, totals_reply))) =
      VObj [("burger", VNum "1"); ("fries", VNum "1"); ("drink", VNum "0")]) /\
  (let st' := fetchOrders initial (Ok (orders_reply, totals_cut_short)) in
   history st' = [ui_burger_order] /\
   totals st' = VObj [("burger", VNum "0"); ("fries", VNum "0"); ("drink", VNum "0")] /\
   error st' = VStr "Unexpected end of JSON input").
Proof.
  split.
  - eexists. repeat split.
  - repeat split.
Qed.

(** ** The history panel *)

Lemma append_assoc (a b c : string) : ((a ++ b) ++ c = a ++ b ++ c)%string.
Proof. induction a as [|x a IH]; cbn; [reflexivity|]. now rewrite IH. Qed.

(** [join] with a comma and a space writes the listing. *)
Lemma join_listing (texts : list (string * string)) :
  join ", " (map (fun t => snd t ++ " " ++ fst t) texts) = listing texts.
Proof.
  induction texts as [|[itemType quantity] rest IH]; [reflexivity|].
  destruct rest as [|next rest]; [reflexivity|].
  cbn [map join listing fst snd] in *. rewrite IH.
  now rewrite !append_assoc.
Qed.

Lemma to_string_array (xs : list value) :
  to_string (VArr xs) = (let* parts := mapM element_text xs in Ok (join "," parts)).
Proof.
  cbn [to_string]. f_equal.
  induction xs as [|x xs IH]; [reflexivity|].
  cbn [mapM]. rewrite <- IH. reflexivity.
Qed.

Lemma value_array_ind (P : value -> Prop) :
  P VUndefined -> P VNull -> (forall b, P (VBool b)) -> (forall shown, P (VNum shown)) ->
  (forall s, P (VStr s)) -> (forall xs, Forall P xs -> P (VArr xs)) ->
  (forall fields, P (VObj fields)) ->
  forall v, P v.
Proof.
  intros Hu Hn Hb Hnum Hs Harr Hobj.
  fix IH 1.
  intros [| |b|shown|s|xs|fields];
    [exact Hu|exact Hn|apply Hb|apply Hnum|apply Hs| |apply Hobj].
  apply Harr. induction xs as [|x xs IHxs]; constructor; [apply IH|exact IHxs].
Qed.

(** ToString returns exactly on plain values. *)
Lemma to_string_plain (v : value) :
  if plain v then exists text, to_string v = Ok text
  else exists e, to_string v = Throw e.
Proof.
  induction v as [| |b|shown|s|xs IH|fields] using value_array_ind;
    try (cbn; eauto; fail).
  - destruct b; cbn; eauto.
  - rewrite to_string_array. cbn [plain].
    induction IH as [|x xs Hx _ IHxs]; [cbn; eauto|].
    cbn [forallb mapM]. unfold element_text at 1 3.
    destruct (nullish x) eqn:Hnull; cbn [orb andb bind].
    + destruct (forallb _ xs); destruct IHxs as [r Hr];
        destruct (mapM element_text xs); cbn in *; try discriminate; eauto.
    + destruct (plain x); destruct Hx as [r Hr]; rewrite Hr; cbn [andb bind]; [|eauto].
      destruct (forallb _ xs); destruct IHxs as [r' Hr'];
        destruct (mapM element_text xs); cbn in *; try discriminate; eauto.
  - cbn. destruct (lookup "toString" fields); eauto.
Qed.


Lemma item_text_ui_item (p : value * value) :
  item_text (ui_item p) =
  (let* quantity := to_string (snd p) in
   let* itemType := to_string (fst p) in
   Ok (quantity ++ " " ++ itemType)).
Proof. destruct p as [t q]. reflexivity. Qed.

Lemma item_texts_printed (pairs : list (value * value)) (texts : list (string * string)) :
  printed pairs texts ->
  mapM item_text (map ui_item pairs) = Ok (map (fun t => snd t ++ " " ++ fst t) texts).
Proof.
  induction 1 as [|p t pairs texts [Htype Hquantity] _ IH]; [reflexivity|].
  cbn [map mapM]. rewrite item_text_ui_item, Hquantity, Htype, IH. reflexivity.
Qed.

Lemma item_texts_unprintable (pairs : list (value * value)) :
  plain_pairs pairs = false ->
  exists e, mapM item_text (map ui_item pairs) = Throw e.
Proof.
  unfold plain_pairs.
  induction pairs as [|p pairs IH]; cbn [forallb map mapM]; [discriminate|].
  rewrite item_text_ui_item. intros H.
  pose proof (to_string_plain (snd p)) as Hq. pose proof (to_string_plain (fst p)) as Ht.
  destruct (plain (snd p)); [|destruct Hq as [e ->]; cbn; eauto].
  destruct Hq as [q ->]. cbn [bind].
  destruct (plain (fst p)); [|destruct Ht as [e ->]; cbn; eauto].
  destruct Ht as [t ->]. cbn [bind andb] in *.
  destruct (IH H) as [e ->]. cbn. eauto.
Qed.


Lemma item_list_printed
    (item : value) (pairs : list (value * value)) (texts : list (string * string)) :
  get item "items" = Ok (VArr (map ui_item pairs)) ->
  printed pairs texts ->
  item_list item = Ok (listing texts).
Proof.
  intros Hitems Hprinted. unfold item_list. rewrite Hitems. cbn [bind array_map].
  rewrite (item_texts_printed pairs texts Hprinted). cbn [bind].
  now rewrite join_listing.
Qed.

Lemma item_list_unprintable (item : value) (pairs : list (value * value)) :
  get item "items" = Ok (VArr (map ui_item pairs)) ->
  plain_pairs pairs = false ->
  exists e, item_list item = Throw e.
Proof.
  intros Hitems Hplain. unfold item_list. rewrite Hitems. cbn [bind array_map].
  destruct (item_texts_unprintable pairs Hplain) as [e ->]. cbn. eauto.
Qed.





(** * Further properties of the page *)

(** ** The mapper, field by field *)

Lemma mapOrderItem_wire_pair (item : value) :
  nullish item = false -> mapOrderItem item = Ok (ui_item (wire_pair item)).
Proof.
  intros Hitem. unfold mapOrderItem, wire_pair, prop, ui_item.
  destruct (get_not_nullish item "item_type" Hitem) as [t ->].
  destruct (get_not_nullish item "quantity" Hitem) as [q ->].
  reflexivity.
Qed.

Lemma mapOrderItem_wire_pairs (items : list value) :
  forallb (fun item => negb (nullish item)) items = true ->
  mapM mapOrderItem items = Ok (map (fun item => ui_item (wire_pair item)) items).
Proof.
  induction items as [|item rest IH]; cbn [mapM forallb map]; [reflexivity|].
  intros H. apply andb_prop in H as [Hitem Hrest].
  apply negb_true_iff in Hitem.
  rewrite (mapOrderItem_wire_pair item Hitem), (IH Hrest). reflexivity.
Qed.

(** The mapper returns exactly on the records of the wire shape: it throws
    on [null], [undefined], and on every value whose [items] is missing, is
    not an array, or holds a [null] or [undefined] element. *)
Theorem mapHistoryItem_succeeds_iff (record : value) :
  (exists ui, mapHistoryItem record = Ok ui) <-> mappable record = true.
Proof.
  split.
  - intros [ui Hui]. destruct (mapHistoryItem_object record ui Hui) as (fields & _ & Hm).
    exact Hm.
  - intros Hm. destruct record; try discriminate.
    destruct (mapHistoryItem_mappable fields Hm) as (items & mapped & _ & _ & Hui). eauto.
Qed.

(** The mapped record takes [actionType] from the record's [action_type]
    (also when the record has an [actionType] of its own) and passes every
    other property through: besides [actionType], [items] and
    [display_message], each key reads as it did on the wire, so [id],
    [timestamp] and [action_type] are kept. *)
Theorem mapHistoryItem_passes_through (fields : list (string * value)) :
  mappable (VObj fields) = true ->
  exists ui,
    mapHistoryItem (VObj fields) = Ok (VObj ui) /\
    lookup "actionType" ui = Some (field "action_type" fields) /\
    (forall k, k <> "actionType" -> k <> "items" -> k <> "display_message" ->
               lookup k ui = lookup k fields).
Proof.
  intros Hm.
  destruct (mapHistoryItem_mappable fields Hm) as (items & mapped & _ & _ & Hui).
  eexists. split; [exact Hui|]. split.
  - rewrite !lookup_assign_other by discriminate. apply lookup_assign_same.
  - intros k Ha Hi Hd. now rewrite !lookup_assign_other by congruence.
Qed.

Lemma mapHistoryItem_passes_through_witness :
  exists ui,
    mapHistoryItem burger_order = Ok (VObj ui) /\
    lookup "actionType" ui = Some (VStr "order") /\
    (forall k, k <> "actionType" -> k <> "items" -> k <> "display_message" ->
               lookup k ui =
               lookup k
                 [("id", VNum "1"); ("action_type", VStr "order");
                  ("items",
                   VArr [VObj [("item_type", VStr "burger"); ("quantity", VNum "1")];
                         VObj [("item_type", VStr "fries"); ("quantity", VNum "1")]]);
                  ("timestamp", VStr "2025-01-01T12:00:00")]).
Proof.
  exact (mapHistoryItem_passes_through _ (eq_refl : mappable burger_order = true)).
Defined.

(** The items of the mapped record are the wire items one for one, in the
    same order: each becomes a record of exactly [itemType] (the wire
    [item_type]) and [quantity]; any other property of a wire item is
    dropped and a missing one reads [undefined]. *)
Theorem mapHistoryItem_items (fields : list (string * value)) (items : list value) :
  mappable (VObj fields) = true ->
  lookup "items" fields = Some (VArr items) ->
  exists ui,
    mapHistoryItem (VObj fields) = Ok (VObj ui) /\
    lookup "items" ui = Some (VArr (map (fun item => ui_item (wire_pair item)) items)).
Proof.
  intros Hm Hitems.
  destruct (mapHistoryItem_mappable fields Hm) as (items' & mapped & Hitems' & Hmapped & Hui).
  rewrite Hitems in Hitems'. injection Hitems' as <-.
  assert (Hall : forallb (fun item => negb (nullish item)) items = true).
  { unfold mappable in Hm. now rewrite Hitems in Hm. }
  rewrite (mapOrderItem_wire_pairs items Hall) in Hmapped.
  injection Hmapped as Hmapped. subst mapped.
  eexists. split; [exact Hui|].
  rewrite lookup_assign_other by discriminate. apply lookup_assign_same.
Qed.

Lemma mapHistoryItem_items_witness :
  exists ui,
    mapHistoryItem burger_order = Ok (VObj ui) /\
    lookup "items" ui =
    Some (VArr [ui_item (VStr "burger", VNum "1"); ui_item (VStr "fries", VNum "1")]).
Proof.
  exact (mapHistoryItem_items _ _ (eq_refl : mappable burger_order = true) eq_refl).
Defined.

(** From the wire to the screen: the row of a mapped record that is not a
    cancellation with a truthy display message lists the wire items, each
    as the text of its [quantity], a space and the text of its
    [item_type], with a comma and a space between two items (an item
    without [item_type] shows as [undefined]).  When an item's quantity or
    item type cannot be turned into text, the item list throws. *)
Theorem wire_record_listing (fields : list (string * value)) (items : list value) :
  mappable (VObj fields) = true ->
  lookup "items" fields = Some (VArr items) ->
  is_string (field "action_type" fields) "cancel" = false \/
  truthy (field "display_message" fields) = false ->
  (forall texts,
      printed (map wire_pair items) texts ->
      (let* ui := mapHistoryItem (VObj fields) in row_detail ui) =
      Ok (El "span" "" [Expr (VStr (listing texts))])) /\
  (plain_pairs (map wire_pair items) = false ->
   exists e, (let* ui := mapHistoryItem (VObj fields) in row_detail ui) = Throw e).
Proof.
  intros Hm Hitems Hplain.
  destruct (mapHistoryItem_mappable fields Hm) as (items' & mapped & Hitems' & Hmapped & Hui).
  rewrite Hitems in Hitems'. injection Hitems' as <-.
  assert (Hall : forallb (fun item => negb (nullish item)) items = true).
  { unfold mappable in Hm. now rewrite Hitems in Hm. }
  rewrite (mapOrderItem_wire_pairs items Hall) in Hmapped.
  injection Hmapped as Hmapped. subst mapped.
  rewrite Hui. cbn [bind].
  set (uif := assign "display_message" _ _).
  assert (Hui_items : get (VObj uif) "items" = Ok (VArr (map ui_item (map wire_pair items)))).
  { rewrite get_object. unfold uif. rewrite lookup_assign_other by discriminate.
    now rewrite lookup_assign_same, map_map. }
  assert (Haction : get (VObj uif) "actionType" = Ok (field "action_type" fields)).
  { rewrite get_object. unfold uif. rewrite !lookup_assign_other by discriminate.
    now rewrite lookup_assign_same. }
  assert (Hdm : get (VObj uif) "display_message" = Ok (field "display_message" fields)).
  { rewrite get_object. unfold uif. now rewrite lookup_assign_same. }
  unfold row_detail, shows_message, is_cancel.
  rewrite Haction, Hdm. cbn [bind].
  assert (Hshown : (if is_string (field "action_type" fields) "cancel"
                    then Ok (truthy (field "display_message" fields))
                    else Ok false) = Ok false).
  { destruct Hplain as [-> | ->]; [reflexivity|].
    now destruct (is_string (field "action_type" fields) "cancel"). }
  rewrite Hshown. cbn [bind]. split.
  - intros texts Hprinted. now rewrite (item_list_printed _ _ _ Hui_items Hprinted).
  - intros Hnot. destruct (item_list_unprintable _ _ Hui_items Hnot) as [e ->].
    cbn. eauto.
Qed.

Lemma wire_record_listing_witness :
  (let* ui := mapHistoryItem burger_order in row_detail ui) =
  Ok (El "span" "" [Expr (VStr "1 burger, 1 fries")]).
Proof.
  apply (proj1 (wire_record_listing _ _ (eq_refl : mappable burger_order = true)
                  eq_refl (or_introl eq_refl))
           [("burger", "1"); ("fries", "1")]).
  repeat constructor.
Defined.

(** ** [fetchOrders] *)

Ltac run_fetch :=
  unfold fetchOrders, fetchOrders_states, fetchOrders_responses, fetchOrders_orders,
         fetchOrders_totals, fetchOrders_begin, fetchOrders_guard, try_catch, seq,
         eval, throw, ret, exec, set_message, set_history, set_totals, set_loading,
         set_error;
  cbn [fst snd message history totals loading error negb].

(** When a request of the first fetch is rejected, or either response is
    not 2xx (even if the other one succeeded), nothing of the page state
    changes but [error]: it becomes the message of the rejection, or
    ['Failed to fetch data from server'].  No body is read. *)
Theorem fetchOrders_failure (st : State) (both : result (Response * Response)) :
  fetch_failed both = true ->
  let st' := fetchOrders st both in
  history st' = history st /\
  totals st' = totals st /\
  message st' = message st /\
  loading st' = loading st /\
  error st' =
  VStr match both with
       | Throw e => message_of "Failed to fetch orders" e
       | Ok _ => "Failed to fetch data from server"
       end.
Proof.
  intros Hfailed. destruct both as [[ordersRes totalsRes]|e]; cbn [fetch_failed] in Hfailed.
  - run_fetch. rewrite Hfailed. cbn. repeat split.
  - run_fetch. cbn. repeat split.
Qed.

Lemma fetchOrders_failure_witness :
  let st' := fetchOrders initial (Ok (orders_reply, mkResponse 500 (Ok VNull))) in
  history st' = [] /\
  totals st' = totals initial /\
  message st' = EmptyString /\
  loading st' = false /\
  error st' = VStr "Failed to fetch data from server".
Proof.
  exact (fetchOrders_failure initial (Ok (orders_reply, mkResponse 500 (Ok VNull))) eq_refl).
Defined.

(** When both responses are 2xx, the orders body is an array of records of
    the wire shape and the totals body can be read, [history] becomes the
    orders mapped record by record and [totals] becomes the totals body as
    it is.  [message], [loading] and [error] are not touched: an error
    shown before stays. *)
Theorem fetchOrders_success
    (st : State) (ordersRes totalsRes : Response) (records : list value)
    (counts : value) :
  ok ordersRes = true ->
  ok totalsRes = true ->
  json ordersRes = Ok (VArr records) ->
  forallb mappable records = true ->
  json totalsRes = Ok counts ->
  let st' := fetchOrders st (Ok (ordersRes, totalsRes)) in
  Forall2 (fun record ui => mapHistoryItem record = Ok ui) records (history st') /\
  totals st' = counts /\
  message st' = message st /\
  loading st' = loading st /\
  error st' = error st.
Proof.
  intros Ho Ht Hrecords Hmappable Hcounts.
  destruct (mapM_mapHistoryItem_total records Hmappable) as (mapped & Hmapped & Hall).
  run_fetch. rewrite Ho, Ht, Hrecords. cbn [negb orb array_map].
  rewrite Hmapped, Hcounts. cbn. repeat split. exact Hall.
Qed.

Lemma fetchOrders_success_witness :
  let st' := fetchOrders (mkState "hi" [] VNull false (VStr "Order not found"))
               (Ok (orders_reply, totals_reply)) in
  Forall2 (fun record ui => mapHistoryItem record = Ok ui) [burger_order] (history st') /\
  totals st' = VObj [("burger", VNum "1"); ("fries", VNum "1"); ("drink", VNum "0")] /\
  message st' = "hi" /\
  loading st' = false /\
  error st' = VStr "Order not found".
Proof.
  exact (fetchOrders_success (mkState "hi" [] VNull false (VStr "Order not found"))
           orders_reply totals_reply [burger_order] _
           eq_refl eq_refl eq_refl eq_refl eq_refl).
Defined.

(** When the orders body cannot be read or cannot be mapped (it is not an
    array, or one of its records is not of the wire shape), neither
    [history] nor [totals] changes and [error] becomes the message of what
    was thrown. *)
Theorem fetchOrders_bad_orders
    (st : State) (ordersRes totalsRes : Response) (e : exn) :
  ok ordersRes = true ->
  ok totalsRes = true ->
  (let* historyData := json ordersRes in array_map "historyData" mapHistoryItem historyData) = Throw e ->
  let st' := fetchOrders st (Ok (ordersRes, totalsRes)) in
  history st' = history st /\
  totals st' = totals st /\
  message st' = message st /\
  loading st' = loading st /\
  error st' = VStr (message_of "Failed to fetch orders" e).
Proof.
  intros Ho Ht Hbad. run_fetch. rewrite Ho, Ht. cbn [negb orb].
  destruct (json ordersRes) as [data|e']; cbn [bind] in Hbad.
  - rewrite Hbad. cbn. repeat split.
  - injection Hbad as ->. cbn. repeat split.
Qed.

Lemma fetchOrders_bad_orders_witness :
  let st' := fetchOrders initial
               (Ok (mkResponse 200 (Ok (VObj [("orders", VArr [])])), totals_reply)) in
  history st' = [] /\
  totals st' = totals initial /\
  message st' = EmptyString /\
  loading st' = false /\
  error st' = VStr "historyData.map is not a function".
Proof.
  exact (fetchOrders_bad_orders initial
           (mkResponse 200 (Ok (VObj [("orders", VArr [])]))) totals_reply _
           eq_refl eq_refl eq_refl).
Defined.

Lemma fetchOrders_responses_frame (st : State) (both : result (Response * Response)) :
  loading (exec (fetchOrders_responses both) st) = loading st /\
  message (exec (fetchOrders_responses both) st) = message st.
Proof.
  destruct both as [[ordersRes totalsRes]|e]; run_fetch;
    [destruct (negb (ok ordersRes) || negb (ok totalsRes))|]; now split.
Qed.

Lemma fetchOrders_orders_frame (st : State) (historyData : result value) :
  loading (exec (fetchOrders_orders historyData) st) = loading st /\
  message (exec (fetchOrders_orders historyData) st) = message st.
Proof.
  destruct historyData as [data|e]; run_fetch;
    [destruct (array_map "historyData" mapHistoryItem data)|]; now split.
Qed.

Lemma fetchOrders_totals_frame (st : State) (totalsData : result value) :
  loading (exec (fetchOrders_totals totalsData) st) = loading st /\
  message (exec (fetchOrders_totals totalsData) st) = message st.
Proof. destruct totalsData; now split. Qed.

(** No stretch of [fetchOrders] touches [loading] or [message], whatever
    arrives and whatever the page state: a fetch that lands during a submit
    neither releases the form nor changes the typed text. *)
Theorem fetchOrders_leaves_form
    (st : State) (both : result (Response * Response))
    (historyData totalsData : result value) :
  (loading (step st (FetchResponded both)) = loading st /\
   message (step st (FetchResponded both)) = message st) /\
  (loading (step st (OrdersRead historyData)) = loading st /\
   message (step st (OrdersRead historyData)) = message st) /\
  (loading (step st (TotalsRead totalsData)) = loading st /\
   message (step st (TotalsRead totalsData)) = message st).
Proof.
  cbn [step]. split; [|split].
  - apply fetchOrders_responses_frame.
  - apply fetchOrders_orders_frame.
  - apply fetchOrders_totals_frame.
Qed.

(** ** [handleSubmit] *)

Lemma string_length_ind (P : string -> Prop) :
  (forall s, (forall t, (String.length t < String.length s)%nat -> P t) -> P s) ->
  forall s, P s.
Proof.
  intros Hstep s.
  assert (H : forall n t, (String.length t < n)%nat -> P t).
  { induction n as [|n IH]; intros t Ht; [lia|].
    apply Hstep. intros u Hu. apply IH. lia. }
  apply (H (S (String.length s))). lia.
Qed.

Lemma trimStart_blank (s : string) :
  blank s = true -> trimStart s = EmptyString.
Proof.
  induction s as [s IH] using string_length_ind.
  destruct s as [|c1 r1]; [reflexivity|]. cbn [blank trimStart].
  destruct (space1 c1); [intros H; apply IH; [cbn; lia|exact H]|].
  destruct r1 as [|c2 r2]; [discriminate|].
  destruct (space2 c1 c2); [intros H; apply IH; [cbn; lia|exact H]|].
  destruct r2 as [|c3 r3]; [discriminate|].
  destruct (space3 c1 c2 c3); [intros H; apply IH; [cbn; lia|exact H]|discriminate].
Qed.

Lemma trimStart_not_blank (s : string) :
  blank s = false -> blank (trimStart s) = false.
Proof.
  induction s as [s IH] using string_length_ind.
  intros Hs. pose proof Hs as Hkeep.
  destruct s as [|c1 r1]; [discriminate|]. cbn [blank trimStart] in *.
  destruct (space1 c1) eqn:H1; [apply IH; [cbn; lia|exact Hs]|].
  destruct r1 as [|c2 r2]; [cbn [blank]; now rewrite H1|].
  destruct (space2 c1 c2) eqn:H2; [apply IH; [cbn; lia|exact Hs]|].
  destruct r2 as [|c3 r3]; [cbn [blank]; now rewrite H1, H2|].
  destruct (space3 c1 c2 c3) eqn:H3; [apply IH; [cbn; lia|exact Hs]|].
  cbn [blank]. now rewrite H1, H2, H3.
Qed.

Lemma trimEnd_empty (s : string) :
  trimEnd s = EmptyString -> blank s = true.
Proof.
  destruct s as [|c rest]; [reflexivity|]. cbn [trimEnd].
  now destruct (blank (String c rest)).
Qed.

Lemma trim_empty_iff (s : string) :
  trim s = EmptyString <-> blank s = true.
Proof.
  unfold trim. split.
  - intros H. apply trimEnd_empty in H.
    destruct (blank s) eqn:Hs; [reflexivity|].
    now rewrite (trimStart_not_blank s Hs) in H.
  - intros H. now rewrite (trimStart_blank s H).
Qed.

(** The submit handler sends nothing exactly when the message is made of
    white space only (the empty message included); any other message
    sends one request. *)
Theorem handleSubmit_silent_iff (st : State) :
  snd (handleSubmit st) = [] <-> blank (message st) = true.
Proof.
  unfold handleSubmit. cbn [truthy].
  rewrite <- trim_empty_iff.
  destruct (trim (message st)) as [|c rest]; cbn; split; try reflexivity; discriminate.
Qed.

(** A message that is not blank is posted as it was typed, white space
    around it included: the handler sends one [POST /process-order] whose
    body is [{message}], sets [loading], clears [error] and leaves
    [message], [history] and [totals] alone.  It does not look at
    [loading]: a submit while another is in flight sends a second
    request. *)
Theorem handleSubmit_posts (st : State) :
  blank (message st) = false ->
  handleSubmit st =
  (mkState (message st) (history st) (totals st) true (VStr EmptyString),
   [mkRequest "POST" "http://localhost:8000/process-order"
      (Some (VObj [("message", VStr (message st))]))]).
Proof.
  intros Hblank. unfold handleSubmit. cbn [truthy].
  destruct (trim (message st)) as [|c rest] eqn:Htrim.
  - apply trim_empty_iff in Htrim. congruence.
  - reflexivity.
Qed.

Lemma handleSubmit_posts_witness :
  handleSubmit (mkState " two fries " [] VNull true (VStr "Order not found")) =
  (mkState " two fries " [] VNull true (VStr EmptyString),
   [mkRequest "POST" "http://localhost:8000/process-order"
      (Some (VObj [("message", VStr " two fries ")]))]).
Proof.
  exact (handleSubmit_posts (mkState " two fries " [] VNull true (VStr "Order not found"))
           eq_refl).
Defined.

(** ** [processOrder], the other ways out *)

(** A 2xx response that is not an application error but whose [history]
    is missing, is not an array, or holds a record that is not of the wire
    shape: the mapper throws before anything is assigned, so [history],
    [totals] and the typed [message] stay and [error] shows the message of
    the throw. *)
Theorem processOrder_malformed
    (st : State) (response : Response) (data status_field : value) (e : exn) :
  ok response = true ->
  json response = Ok data ->
  get data "status" = Ok status_field ->
  is_string status_field "error" = false ->
  (let* records := get data "history" in array_map "data.history" mapHistoryItem records) = Throw e ->
  let st' := processOrder st (Ok response) in
  history st' = history st /\
  totals st' = totals st /\
  message st' = message st /\
  loading st' = false /\
  error st' = VStr (message_of "Failed to process order" e).
Proof.
  intros Hok Hjson Hstatus Hne Hbad.
  run_cmd. rewrite Hjson, Hok, Hstatus. cbn [negb]. rewrite Hne.
  destruct (get data "history") as [records|e']; cbn [bind] in Hbad.
  - rewrite Hbad. cbn. repeat split.
  - injection Hbad as ->. cbn. repeat split.
Qed.

Lemma processOrder_malformed_witness :
  (let st' := processOrder (typed "one burger")
                (Ok (mkResponse 200 (Ok (VObj [("status", VStr "success")])))) in
   history st' = [] /\
   totals st' = totals initial /\
   message st' = "one burger" /\
   loading st' = false /\
   error st' = VStr "Cannot read properties of undefined (reading 'map')") /\
  (let st' := processOrder (typed "one burger")
                (Ok (mkResponse 200
                       (Ok (VObj [("status", VStr "success"); ("history", VObj [])])))) in
   history st' = [] /\
   totals st' = totals initial /\
   message st' = "one burger" /\
   loading st' = false /\
   error st' = VStr "data.history.map is not a function") /\
  (let st' := processOrder (typed "one burger")
                (Ok (mkResponse 200
                       (Ok (VObj [("status", VStr "success");
                                  ("history", VArr [VObj [("items", VStr "none")]])])))) in
   history st' = [] /\
   totals st' = totals initial /\
   message st' = "one burger" /\
   loading st' = false /\
   error st' = VStr "item.items.map is not a function").
Proof.
  split; [|split].
  - exact (processOrder_malformed (typed "one burger")
             (mkResponse 200 (Ok (VObj [("status", VStr "success")]))) _ _ _
             eq_refl eq_refl eq_refl eq_refl eq_refl).
  - exact (processOrder_malformed (typed "one burger")
             (mkResponse 200 (Ok (VObj [("status", VStr "success"); ("history", VObj [])])))
             _ _ _ eq_refl eq_refl eq_refl eq_refl eq_refl).
  - exact (processOrder_malformed (typed "one burger")
             (mkResponse 200
                (Ok (VObj [("status", VStr "success");
                           ("history", VArr [VObj [("items", VStr "none")]])])))
             _ _ _ eq_refl eq_refl eq_refl eq_refl eq_refl).
Defined.

(** A submit starts from a clean slate: the state it ends in does not
    depend on the [error] or the [loading] the page had before, so an old
    error never survives a submit. *)
Lemma processOrder_forgets_error
    (st : State) (net : result Response) (old_error : value) (old_loading : bool) :
  processOrder (mkState (message st) (history st) (totals st) old_loading old_error) net
  = processOrder st net.
Proof. reflexivity. Qed.

(** The typed text is cleared only by a successful submit: after any
    submit, either [message] is as it was, or it is empty, [error] is
    empty too and the response was a 2xx one whose history was mapped into
    [history]. *)
Theorem processOrder_keeps_message (st : State) (net : result Response) :
  let st' := processOrder st net in
  message st' = message st \/
  (message st' = EmptyString /\ error st' = VStr EmptyString /\
   exists response data records,
     net = Ok response /\ ok response = true /\ json response = Ok data /\
     get data "history" = Ok records /\
     array_map "data.history" mapHistoryItem records = Ok (history st')).
Proof.
  destruct net as [response|e]; run_cmd; [|now left].
  destruct (json response) as [data|e] eqn:Hjson; run_cmd; [|now left].
  destruct (ok response) eqn:Hok; cbn [negb].
  - destruct (get data "status") as [status_field|e] eqn:Hstatus; [|now left].
    destruct (is_string status_field "error").
    + destruct (get data "display_message") as [dm|]; [|now left].
      destruct (js_or dm (get data "message")); now left.
    + destruct (get data "history") as [records|] eqn:Hhistory; [|now left].
      destruct (array_map "data.history" mapHistoryItem records) as [mapped|] eqn:Hmapped; [|now left].
      destruct (get data "totals") as [t|] eqn:Ht; cbn.
      * right. repeat split. exists response, data, records. repeat split; assumption.
      * now left.
  - destruct (get data "detail") as [detail|]; [|now left].
    destruct (js_or detail (Ok (VStr "Failed to process order"))) as [what|];
      [destruct (new_Error what)|]; now left.
Qed.

(** ** The page as a machine *)











(** Only a submit sets [loading]: from a page that is not loading, no
    sequence of other events (typing, responses, settled submits, the
    stretches of the first fetch) makes it loading; and once a submit has
    settled the form stays released until the next submit. *)
Theorem loading_needs_submit (events : list event) (st : State) :
  forallb (fun ev => negb (is_submit ev)) events = true ->
  (loading st = false -> loading (run events st) = false) /\
  (forall net, loading (run (SubmitSettled net :: events) st) = false).
Proof.
  intros Hnone.
  assert (Hkeep : forall s, loading s = false -> loading (run events s) = false).
  { induction events as [|ev rest IH]; intros s Hs; [exact Hs|].
    cbn [forallb] in Hnone. apply andb_prop in Hnone as [Hev Hrest].
    cbn [run fold_left]. apply (IH Hrest).
    destruct ev as [text| |net|both|historyData|totalsData]; try discriminate.
    - exact Hs.
    - apply processOrder_settle_releases.
    - cbn [step]. now rewrite (proj1 (fetchOrders_responses_frame s both)).
    - cbn [step]. now rewrite (proj1 (fetchOrders_orders_frame s historyData)).
    - cbn [step]. now rewrite (proj1 (fetchOrders_totals_frame s totalsData)). }
  split; [apply Hkeep|].
  intros net. cbn [run fold_left step]. apply Hkeep. apply processOrder_settle_releases.
Qed.

Lemma loading_needs_submit_witness :
  (loading initial = false ->
   loading (run [Typed "one burger"; FetchResponded (Ok (orders_reply, totals_reply));
                 OrdersRead (Ok (VArr [burger_order])); TotalsRead (Ok VNull)]
              initial) = false) /\
  (forall net,
     loading (run (SubmitSettled net ::
                   [Typed "one burger"; FetchResponded (Ok (orders_reply, totals_reply));
                    OrdersRead (Ok (VArr [burger_order])); TotalsRead (Ok VNull)])
                initial) = false).
Proof.
  exact (loading_needs_submit
           [Typed "one burger"; FetchResponded (Ok (orders_reply, totals_reply));
            OrdersRead (Ok (VArr [burger_order])); TotalsRead (Ok VNull)]
           initial eq_refl).
Defined.

(** ** The totals panel and the form *)








(** An application error without text is silent: when the body has status
    ['error'] and neither a truthy [display_message] nor a truthy
    [message], the submit ends with no error banner, the form released,
    and the typed text, [history] and [totals] as they were. *)
Theorem rejection_without_text_is_silent
    (st : State) (response : Response) (data display_message text : value) :
  ok response = true ->
  json response = Ok data ->
  get data "status" = Ok (VStr "error") ->
  get data "display_message" = Ok display_message ->
  truthy display_message = false ->
  get data "message" = Ok text ->
  truthy text = false ->
  let st' := processOrder st (Ok response) in
  banner (render_form st') = None /\
  button_label (render_form st') = "Run" /\
  input_value (render_form st') = message st /\
  history st' = history st /\
  totals st' = totals st.
Proof.
  intros Hok Hjson Hstatus Hdm Hfalsy Htext Hfalsy'.
  unfold render_form. run_cmd.
  rewrite Hjson, Hok, Hstatus. cbn [negb is_string String.eqb Ascii.eqb Bool.eqb].
  rewrite Hdm. unfold js_or. rewrite Hfalsy, Htext. cbn.
  rewrite Hfalsy'. repeat split.
Qed.

Lemma rejection_without_text_is_silent_witness :
  let st' := processOrder (typed "two shakes")
               (Ok (mkResponse 200
                      (Ok (VObj [("status", VStr "error"); ("message", VStr EmptyString)])))) in
  banner (render_form st') = None /\
  button_label (render_form st') = "Run" /\
  input_value (render_form st') = "two shakes" /\
  history st' = [] /\
  totals st' = totals initial.
Proof.
  exact (rejection_without_text_is_silent (typed "two shakes")
           (mkResponse 200
              (Ok (VObj [("status", VStr "error"); ("message", VStr EmptyString)])))
           _ VUndefined (VStr EmptyString)
           eq_refl eq_refl eq_refl eq_refl eq_refl eq_refl eq_refl).
Defined.

(** Whether a rejected [fetch] is shown: the banner holds the message of
    the rejection in the red paragraph, and there is no banner at all when
    that message is empty. *)
Theorem failure_banner (st : State) (e : exn) :
  banner (render_form (processOrder st (Throw e))) =
  if (message_of "Failed to process order" e =? EmptyString)%string then None
  else Some (El "div" "mt-2 p-3 bg-red-50 border border-red-200 rounded-md"
               [El "p" "text-red-600"
                  [Expr (VStr (message_of "Failed to process order" e))]]).
Proof.
  unfold render_form. run_cmd. cbn [truthy].
  now destruct (message_of "Failed to process order" e =? EmptyString)%string.
Qed.

(** ** Submitting again *)

Lemma processOrder_success_state
    (st : State) (response : Response) (data status_field counts records : value)
    (mapped : list value) :
  ok response = true ->
  json response = Ok data ->
  get data "status" = Ok status_field ->
  is_string status_field "error" = false ->
  get data "history" = Ok records ->
  array_map "data.history" mapHistoryItem records = Ok mapped ->
  get data "totals" = Ok counts ->
  processOrder st (Ok response) =
  mkState EmptyString mapped counts false (VStr EmptyString).
Proof.
  intros Hok Hjson Hstatus Hne Hhistory Hmapped Hcounts.
  run_cmd. rewrite Hjson, Hok, Hstatus. cbn [negb]. rewrite Hne, Hhistory.
  rewrite Hmapped, Hcounts. reflexivity.
Qed.

Lemma processOrder_failed_frame (st : State) (net : result Response) :
  failed net = true ->
  message (processOrder st net) = message st /\
  history (processOrder st net) = history st /\
  totals (processOrder st net) = totals st.
Proof.
  intros Hfailed. destruct net as [response|e]; cbn [failed] in Hfailed.
  - run_cmd. destruct (json response) as [data|e]; run_cmd; [|repeat split].
    rewrite orb_false_r in Hfailed. apply negb_true_iff in Hfailed.
    rewrite Hfailed. run_cmd.
    destruct (get data "detail") as [detail|e]; [|repeat split].
    destruct (js_or detail (Ok (VStr "Failed to process order"))) as [what|];
      [destruct (new_Error what)|]; repeat split.
  - run_cmd. repeat split.
Qed.

(** After a successful submit the text is gone, so submitting again
    without typing does nothing: no second request, and the page state
    stays the one the response left. *)
Theorem submit_again_after_success
    (st : State) (response : Response) (data status_field counts records : value)
    (mapped : list value) :
  ok response = true ->
  json response = Ok data ->
  get data "status" = Ok status_field ->
  is_string status_field "error" = false ->
  get data "history" = Ok records ->
  array_map "data.history" mapHistoryItem records = Ok mapped ->
  get data "totals" = Ok counts ->
  handleSubmit (processOrder st (Ok response)) =
  (mkState EmptyString mapped counts false (VStr EmptyString), []).
Proof.
  intros Hok Hjson Hstatus Hne Hhistory Hmapped Hcounts.
  rewrite (processOrder_success_state st response data status_field counts records mapped
             Hok Hjson Hstatus Hne Hhistory Hmapped Hcounts).
  reflexivity.
Qed.

Lemma submit_again_after_success_witness :
  handleSubmit (processOrder (typed "one burger and fries") (Ok order_placed)) =
  (mkState EmptyString [ui_burger_order]
     (VObj [("burger", VNum "1"); ("fries", VNum "1"); ("drink", VNum "0")])
     false (VStr EmptyString), []).
Proof.
  exact (submit_again_after_success (typed "one burger and fries") order_placed _
           (VStr "success") _ (VArr [burger_order]) [ui_burger_order]
           eq_refl eq_refl eq_refl eq_refl eq_refl eq_refl eq_refl).
Defined.

(** After a failed submit the text is still there, so submitting again
    retries: the handler posts the same message once more, sets [loading]
    and clears the error of the failure, with [history] and [totals] as
    they were before the first attempt. *)
Theorem submit_again_after_failure (st : State) (net : result Response) :
  blank (message st) = false ->
  failed net = true ->
  handleSubmit (processOrder st net) =
  (mkState (message st) (history st) (totals st) true (VStr EmptyString),
   [mkRequest "POST" "http://localhost:8000/process-order"
      (Some (VObj [("message", VStr (message st))]))]).
Proof.
  intros Hblank Hfailed.
  destruct (processOrder_failed_frame st net Hfailed) as (Hmessage & Hhistory & Htotals).
  unfold handleSubmit. cbn [truthy]. rewrite Hmessage.
  destruct (trim (message st)) as [|c rest] eqn:Htrim.
  - apply trim_empty_iff in Htrim. congruence.
  - cbn. unfold processOrder_begin, seq, set_loading, set_error.
    cbn [message history totals loading error].
    now rewrite Hmessage, Hhistory, Htotals.
Qed.

Lemma submit_again_after_failure_witness :
  handleSubmit (processOrder (typed "cancel order #9") (Ok order_not_found)) =
  (mkState "cancel order #9" [] (totals initial) true (VStr EmptyString),
   [mkRequest "POST" "http://localhost:8000/process-order"
      (Some (VObj [("message", VStr "cancel order #9")]))]).
Proof.
  exact (submit_again_after_failure (typed "cancel order #9") (Ok order_not_found)
           eq_refl eq_refl).
Defined.
